(** * trendy_scrape: product discovery pipeline

    A shallow embedding of the search chain ([web_search.py]), the
    content-fetch chain ([web_scraper.py]) and the HTML field extractor
    and discovery orchestrator ([agent.py]), with the properties stated
    about them.

    Conventions.
    - A Python [str] is a [string]; every character stands for the code
      point of the same number (0..255).
    - A Python value that comes out of [json.loads] or flows through
      untyped code is a [pyval].
    - Code that can raise returns a [result]; code that talks to the
      outside world (HTTP, the browser driver) runs in the monad [M],
      which threads the history of external actions.
    - Library functions that are not part of the repository
      ([BeautifulSoup], [json.loads], [urljoin], [requests.post], the
      Selenium driver, [validators.url], the rendering done by [str] on
      non-string values) are section variables.  [print] calls and the
      [time.sleep] before the page source is read are left out. *)

From Stdlib Require Import ZArith String Ascii List Bool Lia.
From Stdlib Require Import SpecFloat.
From stdpp Require Import base list gmap strings.

Local Open Scope Z_scope.

(** ** Exceptions and results *)

Inductive exn : Type :=
| ValueError (msg : string)
| AttributeError
| IndexError
| KeyError
| TypeError
| LibraryError (what : string).

Inductive result (A : Type) : Type :=
| Ok (a : A)
| Raise (e : exn).
Arguments Ok {A} a.
Arguments Raise {A} e.

Definition rbind {A B} (r : result A) (k : A -> result B) : result B :=
  match r with
  | Ok a => k a
  | Raise e => Raise e
  end.

Notation "'do!' x <- e ; k" := (rbind e (fun x => k))
  (at level 10, x name, e at level 100, k at level 200).

(** ** Python values *)

#[warnings="-register-all"]
Inductive pyval : Type :=
| PNone
| PBool (b : bool)
| PInt (z : Z)
| PFloat (f : spec_float)
| PStr (s : string)
| PList (l : list pyval)
| PDict (d : list (string * pyval)).

(** [bool(v)] *)
Definition truthy (v : pyval) : bool :=
  match v with
  | PNone => false
  | PBool b => b
  | PInt z => negb (z =? 0)
  | PFloat (S754_zero _) => false
  | PFloat _ => true
  | PStr "" => false
  | PStr _ => true
  | PList [] => false
  | PList _ => true
  | PDict [] => false
  | PDict _ => true
  end.

(** [a or b], both already evaluated *)
Definition py_or (a b : pyval) : pyval := if truthy a then a else b.

(** [a or b] where evaluating [b] may raise *)
Definition py_or_lazy (a : pyval) (b : result pyval) : result pyval :=
  if truthy a then Ok a else b.

Definition isinstance_list (v : pyval) : bool :=
  match v with PList _ => true | _ => false end.

Definition isinstance_dict (v : pyval) : bool :=
  match v with PDict _ => true | _ => false end.

(** A [dict] is kept as its items in insertion order. *)
Fixpoint dict_lookup (d : list (string * pyval)) (k : string) : option pyval :=
  match d with
  | [] => None
  | (k', v) :: d' => if String.eqb k' k then Some v else dict_lookup d' k
  end.

(** [d.get(k)] on a dict *)
Definition dict_get (d : list (string * pyval)) (k : string) : pyval :=
  match dict_lookup d k with Some v => v | None => PNone end.

(** [v.get(k)]: only a dict has the method *)
Definition py_get (v : pyval) (k : string) : result pyval :=
  match v with
  | PDict d => Ok (dict_get d k)
  | _ => Raise AttributeError
  end.

(** [v.get(k, default)] *)
Definition py_get_default (v : pyval) (k : string) (dflt : pyval) : result pyval :=
  match v with
  | PDict d => Ok (match dict_lookup d k with Some x => x | None => dflt end)
  | _ => Raise AttributeError
  end.

(** [v[0]] *)
Definition py_item0 (v : pyval) : result pyval :=
  match v with
  | PList (x :: _) => Ok x
  | PList [] => Raise IndexError
  | PStr (String c _) => Ok (PStr (String c ""))
  | PStr "" => Raise IndexError
  | PDict _ => Raise KeyError
  | _ => Raise TypeError
  end.

(** [xs[:n]] *)
Definition py_slice_to {A} (xs : list A) (n : Z) : list A :=
  if 0 <=? n then take (Z.to_nat n) xs
  else take (length xs - Z.to_nat (- n))%nat xs.

(** ** Strings *)

(** [str.isspace] on one character *)
Definition isspace (c : ascii) : bool :=
  let n := N_of_ascii c in
  ((9 <=? n) && (n <=? 13) || (28 <=? n) && (n <=? 32)
   || (n =? 133) || (n =? 160))%N.

Fixpoint lstrip (s : string) : string :=
  match s with
  | EmptyString => EmptyString
  | String c s' => if isspace c then lstrip s' else s
  end.

Fixpoint rstrip (s : string) : string :=
  match s with
  | EmptyString => EmptyString
  | String c s' =>
      match rstrip s' with
      | EmptyString => if isspace c then EmptyString else String c EmptyString
      | r => String c r
      end
  end.

(** [s.strip()] *)
Definition strip (s : string) : string := rstrip (lstrip s).

(** Every character of [s] is whitespace. *)
Fixpoint whitespace_only (s : string) : bool :=
  match s with
  | EmptyString => true
  | String c s' => isspace c && whitespace_only s'
  end.

(** [s.startswith(p)] *)
Definition startswith (s p : string) : bool := String.prefix p s.

(** [bool(s)] for a [str] *)
Definition nonempty (s : string) : bool :=
  match s with EmptyString => false | _ => true end.

Definition lower_char (c : ascii) : ascii :=
  let n := N_of_ascii c in
  if ((65 <=? n) && (n <=? 90)
      || (192 <=? n) && (n <=? 222) && negb (n =? 215))%N
  then ascii_of_N (n + 32) else c.

(** [s.lower()] *)
Fixpoint lower (s : string) : string :=
  match s with
  | EmptyString => EmptyString
  | String c s' => String (lower_char c) (lower s')
  end.

(** ** The outside world *)

Record response : Type := {
  status_code : Z;
  resp_json : result pyval;      (* resp.json() *)
  resp_text : string             (* resp.text *)
}.

(** External actions, in the order the program performs them. *)
Inductive event : Type :=
| HttpPost (endpoint : string) (payload : pyval)
| ChromeStart
| DriverGet (url : string)
| DriverPageSource
| DriverQuit.

(** History of external actions, most recent first. *)
Definition history := list event.

(** Stateful code that can raise: the state reached is kept when an
    exception passes. *)
Definition ST (S A : Type) : Type := S -> result A * S.

Definition mret {S A} (a : A) : ST S A := fun s => (Ok a, s).

Definition mraise {S A} (e : exn) : ST S A := fun s => (Raise e, s).

Definition mbind {S A B} (m : ST S A) (k : A -> ST S B) : ST S B :=
  fun s =>
    match m s with
    | (Ok a, s') => k a s'
    | (Raise e, s') => (Raise e, s')
    end.

(** [try: body except Exception: handler] *)
Definition mtry {S A} (body : ST S A) (handler : exn -> ST S A) : ST S A :=
  fun s =>
    match body s with
    | (Ok a, s') => (Ok a, s')
    | (Raise e, s') => handler e s'
    end.

(** [try: body finally: cleanup] *)
Definition mfinally {S A} (body : ST S A) (cleanup : ST S unit) : ST S A :=
  fun s =>
    match body s with
    | (r, s') =>
        match cleanup s' with
        | (Ok _, s'') => (r, s'')
        | (Raise e, s'') => (Raise e, s'')
        end
    end.

Definition mlift {S A} (r : result A) : ST S A := fun s => (r, s).

Definition mget {S} : ST S S := fun s => (Ok s, s).

Notation "'run!' x <- e ; k" := (mbind e (fun x => k))
  (at level 10, x name, e at level 100, k at level 200).

(** Code that talks to the outside world. *)
Definition M (A : Type) : Type := ST history A.

(** Perform the external action [ev]; the world answers [answer h],
    which may depend on everything that happened before. *)
Definition perform {A} (ev : event) (answer : history -> result A) : M A :=
  fun h => (answer h, ev :: h).

(** Number of events of the history that satisfy [p]. *)
Definition count_events (p : event -> bool) (h : history) : nat :=
  length (List.filter p h).

Definition is_post_to (endpoint : string) (ev : event) : bool :=
  match ev with
  | HttpPost e _ => String.eqb e endpoint
  | _ => false
  end.

Definition is_chrome_start (ev : event) : bool :=
  match ev with
  | ChromeStart => true
  | _ => false
  end.

(** ** The parsed document

    What the program observes of a [BeautifulSoup] tree: the tags in
    document order, each with its name, its attributes and its
    [.string]. *)

Record tag : Type := {
  tag_name : string;
  tag_attrs : list (string * string);
  tag_string : option string
}.

Definition soup := list tag.

(** [t.get(k)] *)
Fixpoint attr_lookup (attrs : list (string * string)) (k : string) : option string :=
  match attrs with
  | [] => None
  | (k', v) :: rest => if String.eqb k' k then Some v else attr_lookup rest k
  end.

Definition tag_get (t : tag) (k : string) : option string :=
  attr_lookup (tag_attrs t) k.

(** The whitespace-separated tokens of an attribute value: the parser
    stores [rel] (like [class]) as the list of these. *)
Fixpoint tokens_from (s cur : string) : list string :=
  match s with
  | EmptyString => if nonempty cur then [cur] else []
  | String c s' =>
      if isspace c
      then (if nonempty cur then [cur] else []) ++ tokens_from s' ""
      else tokens_from s' (cur +:+ String c "")
  end.

Definition tokens (s : string) : list string := tokens_from s "".

Fixpoint join_space (l : list string) : string :=
  match l with
  | [] => ""
  | [x] => x
  | x :: rest => x +:+ " " +:+ join_space rest
  end.

(** keyword filter [k=v] on a single-valued attribute *)
Definition attr_is (k v : string) (t : tag) : bool :=
  match tag_get t k with
  | Some x => String.eqb x v
  | None => false
  end.

(** keyword filter [k=v] on a multi-valued attribute: some token is
    [v], or the tokens joined by one space are [v] *)
Definition attr_has (k v : string) (t : tag) : bool :=
  match tag_get t k with
  | Some x =>
      existsb (String.eqb v) (tokens x) || String.eqb (join_space (tokens x)) v
  | None => false
  end.

(** keyword filter [k=True] *)
Definition attr_present (k : string) (t : tag) : bool :=
  match tag_get t k with Some _ => true | None => false end.

(** [soup.find_all(name, ...)] *)
Definition find_all (sp : soup) (name : string) (p : tag -> bool) : list tag :=
  List.filter (fun t => String.eqb (tag_name t) name && p t) sp.

(** [soup.find(name, ...)] *)
Definition find (sp : soup) (name : string) (p : tag -> bool) : option tag :=
  head (find_all sp name p).

(** * The program *)

Section Pipeline.

(** [str(v)] for a value that is not a [str] *)
Variable py_render : pyval -> string.

(** the module constant read from the environment *)
Variable FIRECRAWL_API_KEY : option string.

(** [requests.post(endpoint, ...)] *)
Variable requests_post : history -> string -> pyval -> result response.

(** the Selenium driver *)
Variable chrome_start : history -> result unit.
Variable driver_get : history -> string -> result unit.
Variable driver_page_source : history -> result string.
Variable driver_quit : history -> result unit.

(** [validators.url], when the package is installed *)
Variable validators_url : option (string -> bool).

(** [BeautifulSoup(markup, "html.parser")] *)
Variable BeautifulSoup : pyval -> result soup.

(** [json.loads] *)
Variable json_loads : string -> result pyval.

(** [urllib.parse.urljoin] *)
Variable urljoin : pyval -> string -> result string.

(** ** web_scraper.py *)

(** [str(v)] *)
Definition py_str (v : pyval) : string :=
  match v with
  | PStr s => s
  | _ => py_render v
  end.

Definition normalize_url (url : pyval) : option string :=
  if negb (truthy url) then None
  else
    let u := strip (py_str url) in
    if negb (nonempty u) then None
    else
      if negb (startswith u "http://") && negb (startswith u "https://")
      then Some ("https://" +:+ u)
      else Some u.

Definition FIRECRAWL_API_BASE : string := "https://api.firecrawl.com/v2/scrape".

Definition key_present (k : option string) : bool :=
  match k with Some s => nonempty s | None => false end.

(** [resp.raise_for_status()] *)
Definition raise_for_status (resp : response) : result unit :=
  if (400 <=? status_code resp) && (status_code resp <? 600)
  then Raise (LibraryError "HTTPError")
  else Ok tt.

Definition scrape_payload (url : string) : pyval :=
  PDict [("url", PStr url);
         ("formats", PList [PStr "html"]);
         ("options", PDict [("stealth", PBool true); ("timeout", PInt 20)])].

Definition scrape_with_firecrawl (url : string) : M pyval :=
  if negb (key_present FIRECRAWL_API_KEY) then mret PNone
  else
    mtry
      (run! resp <- perform (HttpPost FIRECRAWL_API_BASE (scrape_payload url))
                      (fun h => requests_post h FIRECRAWL_API_BASE (scrape_payload url));
       run! _ <- mlift (raise_for_status resp);
       run! data <- mlift (resp_json resp);
       mlift
         (do! a <- py_get data "html";
          py_or_lazy a
            (do! b <- py_get data "content";
             py_or_lazy b
               (do! r <- py_get data "results";
                if truthy r then
                  do! rs <- py_get_default data "results" (PList [PDict []]);
                  do! first <- py_item0 rs;
                  py_get first "html"
                else Ok PNone))))
      (fun _ => mret PNone).

Definition scrape_with_selenium (url : string) : M string :=
  run! _ <- perform ChromeStart chrome_start;
  mfinally
    (run! _ <- perform (DriverGet url) (fun h => driver_get h url);
     perform DriverPageSource driver_page_source)
    (mtry (perform DriverQuit driver_quit) (fun _ => mret tt)).

Definition scrape_website (url : pyval) : M pyval :=
  if negb (truthy url)
  then mraise (ValueError "scrape_website expected a non-empty URL but got None/empty.")
  else
    match normalize_url url with
    | None => mraise (ValueError "Cannot normalize URL")
    | Some url_norm =>
        if negb (nonempty url_norm) then mraise (ValueError "Cannot normalize URL")
        else
          if match validators_url with
             | Some valid => negb (valid url_norm)
             | None => false
             end
          then mraise (ValueError "Normalized URL does not appear valid")
          else
            run! html <- scrape_with_firecrawl url_norm;
            if truthy html then mret html
            else
              run! page <- scrape_with_selenium url_norm;
              mret (PStr page)
    end.

(** [range(0, stop, step)] for a positive [step]: the start indices
    [0, step, 2*step, ...] below [stop]. *)
Fixpoint range_from (fuel i stop step : nat) : list nat :=
  match fuel with
  | O => []
  | S fuel' =>
      if (i <? stop)%nat then i :: range_from fuel' (i + step) stop step else []
  end.

(** [range(0, stop, step)] *)
Definition py_range0 (stop : nat) (step : Z) : result (list nat) :=
  if step =? 0 then Raise (ValueError "range() arg 3 must not be zero")
  else if step <? 0 then Ok []
  else Ok (range_from stop 0 stop (Z.to_nat step)).

Definition split_dom_content (dom_content : string) (max_length : Z)
    : result (list string) :=
  do! starts <- py_range0 (String.length dom_content) max_length;
  Ok (map (fun i => String.substring i (Z.to_nat max_length) dom_content) starts).

(** ** web_search.py *)

Definition FIRECRAWL_SEARCH_URL : string := "https://api.firecrawl.com/v2/search".

Definition DDG_URL : string := "https://html.duckduckgo.com/html/".

(** [for v in x] *)
Definition py_iter (v : pyval) : result (list pyval) :=
  match v with
  | PList l => Ok l
  | PDict d => Ok (map (fun kv => PStr (fst kv)) d)
  | PStr s => Ok (map (fun c => PStr (String c "")) (list_ascii_of_string s))
  | _ => Raise TypeError
  end.

(** The inner loop over one result array: append the URL of every
    dict item that has one. *)
Fixpoint collect_urls (items : list pyval) (results : list pyval) : list pyval :=
  match items with
  | [] => results
  | it :: rest =>
      match it with
      | PDict d =>
          let url := py_or (py_or (dict_get d "url") (dict_get d "link"))
                           (dict_get d "target") in
          if truthy url then collect_urls rest (results ++ [url])
          else collect_urls rest results
      | _ => collect_urls rest results
      end
  end.

(** The loop over the known keys; [Some r] when it returned [r]. *)
Fixpoint scan_keys (data : pyval) (keys : list string) (results : list pyval)
    (num_results : Z) : result (option (list pyval)) :=
  match keys with
  | [] => Ok None
  | key :: rest =>
      do! v <- py_get data key;
      if isinstance_list v then
        do! arr <- py_get_default data key (PList []);
        do! items <- py_iter arr;
        let results' := collect_urls items results in
        match results' with
        | _ :: _ => Ok (Some (py_slice_to results' num_results))
        | [] => scan_keys data rest results' num_results
        end
      else scan_keys data rest results num_results
  end.

Fixpoint extract_urls_from_obj (obj : pyval) : list string :=
  match obj with
  | PDict d =>
      (fix values (d : list (string * pyval)) : list string :=
         match d with
         | [] => []
         | (_, v) :: d' => extract_urls_from_obj v ++ values d'
         end) d
  | PList l =>
      (fix elems (l : list pyval) : list string :=
         match l with
         | [] => []
         | v :: l' => extract_urls_from_obj v ++ elems l'
         end) l
  | PStr s => if startswith s "http" then [s] else []
  | _ => []
  end.

(** The order-keeping dedupe loop with its [seen] set. *)
Fixpoint dedupe_loop (us : list string) (uniq : list string) (seen : gset string)
    : list string :=
  match us with
  | [] => uniq
  | u :: rest =>
      if bool_decide (u ∈ seen) then dedupe_loop rest uniq seen
      else dedupe_loop rest (uniq ++ [u]) ({[u]} ∪ seen)
  end.

Definition dedupe (us : list string) : list string := dedupe_loop us [] ∅.

Definition search_query (site query : string) : string :=
  if nonempty site then "site:" +:+ site +:+ " " +:+ query else query.

Definition search_payload (q : string) (num_results : Z) : pyval :=
  PDict [("query", PStr q); ("limit", PInt num_results)].

Definition firecrawl_search (query site : string) (num_results : Z) : M (list pyval) :=
  if negb (key_present FIRECRAWL_API_KEY) then mret []
  else
    let q := search_query site query in
    let payload := search_payload q num_results in
    run! posted <- mtry
                     (run! resp <- perform (HttpPost FIRECRAWL_SEARCH_URL payload)
                                     (fun h => requests_post h FIRECRAWL_SEARCH_URL payload);
                      mret (Some resp))
                     (fun _ => mret None);
    match posted with
    | None => mret []
    | Some resp =>
        if negb (status_code resp =? 200) then mret []
        else
          match resp_json resp with
          | Raise _ => mret []
          | Ok data =>
              run! keyed <- mlift (scan_keys data ["results"; "data"; "items"] [] num_results);
              match keyed with
              | Some r => mret r
              | None =>
                  let extracted := extract_urls_from_obj data in
                  mret (map PStr (py_slice_to (dedupe extracted) num_results))
              end
          end
    end.

(** The loop over the anchors of the result page. *)
Fixpoint ddg_links (anchors : list tag) (links : list string) (num_results : Z)
    : list string :=
  match anchors with
  | [] => links
  | a :: rest =>
      match tag_get a "href" with
      | None => ddg_links rest links num_results
      | Some href =>
          if startswith href "/" then ddg_links rest links num_results
          else
            let links' := if startswith href "http" then links ++ [href] else links in
            if Z.of_nat (length links') >=? num_results then links'
            else ddg_links rest links' num_results
      end
  end.

Definition ddg_payload (query : string) : pyval := PDict [("q", PStr query)].

Definition ddg_search (query : string) (num_results : Z) : M (list pyval) :=
  run! posted <- mtry
                   (run! resp <- perform (HttpPost DDG_URL (ddg_payload query))
                                   (fun h => requests_post h DDG_URL (ddg_payload query));
                    run! _ <- mlift (raise_for_status resp);
                    mret (Some resp))
                   (fun _ => mret None);
  match posted with
  | None => mret []
  | Some resp =>
      run! sp <- mlift (BeautifulSoup (PStr (resp_text resp)));
      let links := ddg_links (find_all sp "a" (attr_present "href")) [] num_results in
      mret (map PStr (py_slice_to (dedupe links) num_results))
  end.

Definition search_all (query site : string) (num_results : Z) : M (list pyval) :=
  run! fc <- firecrawl_search query site num_results;
  match fc with
  | _ :: _ => mret fc
  | [] =>
      ddg_search
        ((if nonempty site then "site:" +:+ site +:+ " " else "") +:+ query)
        num_results
  end.

(** [main] of web_search.py: the first candidate, or [None]. *)
Definition web_search_main (query site : string) (num_results : Z) : M pyval :=
  run! results <- search_all query site num_results;
  match results with
  | first :: _ => mret first
  | [] => mret PNone
  end.

(** ** agent.py *)

Record product : Type := {
  name : pyval;
  price : pyval;
  link : pyval;
  image : pyval;
  source_url : pyval;
  raw_title : pyval
}.

(** a [str | None] as a value *)
Definition of_opt (o : option string) : pyval :=
  match o with Some s => PStr s | None => PNone end.

(** The [canonical] assignment at the top of [parse_product_page]. *)
Definition canonical_of (sp : soup) (url : pyval) : result pyval :=
  match find sp "link" (attr_has "rel" "canonical") with
  | Some can_tag =>
      match tag_get can_tag "href" with
      | Some href =>
          if nonempty href then
            do! u <- urljoin url href;
            Ok (PStr u)
          else Ok url
      | None => Ok url
      end
  | None => Ok url
  end.

Fixpoint meta_prop (sp : soup) (prop_names : list string) : option string :=
  match prop_names with
  | [] => None
  | p :: rest =>
      let tg :=
        match find sp "meta" (attr_is "property" p) with
        | Some t => Some t
        | None => find sp "meta" (attr_is "name" p)
        end in
      match tg with
      | Some t =>
          match tag_get t "content" with
          | Some content =>
              if nonempty content then Some (strip content)
              else meta_prop sp rest
          | None => meta_prop sp rest
          end
      | None => meta_prop sp rest
      end
  end.

(** [soup.title.string.strip() if soup.title and soup.title.string else None] *)
Definition title_of (sp : soup) : option string :=
  match find sp "title" (fun _ => true) with
  | Some t =>
      match tag_string t with
      | Some s => if nonempty s then Some (strip s) else None
      | None => None
      end
  | None => None
  end.

(** The three variables the JSON-LD scan assigns. *)
Record ld_state : Type := {
  ld_name : pyval;
  ld_price : pyval;
  ld_image : pyval
}.

Definition set_name (v : pyval) : ST ld_state unit :=
  fun st => (Ok tt, {| ld_name := v; ld_price := ld_price st; ld_image := ld_image st |}).

Definition set_price (v : pyval) : ST ld_state unit :=
  fun st => (Ok tt, {| ld_name := ld_name st; ld_price := v; ld_image := ld_image st |}).

Definition set_image (v : pyval) : ST ld_state unit :=
  fun st => (Ok tt, {| ld_name := ld_name st; ld_price := ld_price st; ld_image := v |}).

Definition is_product_type (it_type : pyval) : bool :=
  truthy it_type && String.eqb (lower (py_str it_type)) "product".

(** The [if offers:] block. *)
Definition process_offers (offers : pyval) : ST ld_state unit :=
  run! offers <- mlift (if isinstance_list offers then py_item0 offers else Ok offers);
  run! p <- mlift (py_get offers "price");
  run! price_val <- mlift (py_or_lazy p
                             (do! ps <- py_get offers "priceSpecification";
                              py_get (py_or ps (PDict [])) "price"));
  run! _ <- (if truthy price_val then set_price (PStr (py_str price_val)) else mret tt);
  run! c <- mlift (py_get offers "priceCurrency");
  run! currency <- mlift (py_or_lazy c (py_get offers "currency"));
  run! st <- mget;
  if truthy currency && truthy (ld_price st)
  then set_price (PStr (py_str (ld_price st) +:+ " " +:+ py_str currency))
  else mret tt.

(** The body of [for it in items]; the answer is [true] on [break]. *)
Definition process_item (it : pyval) : ST ld_state bool :=
  run! a <- mlift (py_get it "@type");
  run! t0 <- mlift (py_or_lazy a (py_get it "type"));
  run! it_type <- mlift (if isinstance_list t0 then py_item0 t0 else Ok t0);
  if is_product_type it_type then
    run! st <- mget;
    run! _ <- (if negb (truthy (ld_name st)) then
                 run! n <- mlift (py_get it "name");
                 set_name n
               else mret tt);
    run! offers <- mlift (py_get it "offers");
    run! _ <- (if truthy offers then process_offers offers else mret tt);
    run! img <- mlift (py_get it "image");
    run! _ <- (if truthy img then
                 if isinstance_list img then
                   run! x <- mlift (py_item0 img);
                   set_image x
                 else set_image img
               else mret tt);
    run! st' <- mget;
    mret (truthy (ld_name st'))
  else mret false.

(** [for it in items]: [break] leaves this loop only. *)
Fixpoint scan_items (items : list pyval) : ST ld_state unit :=
  match items with
  | [] => mret tt
  | it :: rest =>
      run! brk <- process_item it;
      if brk then mret tt else scan_items rest
  end.

(** [for script in soup.find_all("script", type="application/ld+json")] *)
Fixpoint scan_scripts (scripts : list tag) : ST ld_state unit :=
  match scripts with
  | [] => mret tt
  | script :: rest =>
      match tag_string script with
      | None => scan_scripts rest
      | Some text =>
          if negb (nonempty text) then scan_scripts rest
          else
            match json_loads (strip text) with
            | Raise _ => scan_scripts rest
            | Ok data =>
                let items := match data with PList l => l | _ => [data] end in
                run! _ <- scan_items items;
                scan_scripts rest
            end
      end
  end.

Definition ld_scripts (sp : soup) : list tag :=
  find_all sp "script" (attr_is "type" "application/ld+json").

Definition ld_init : ld_state :=
  {| ld_name := PNone; ld_price := PNone; ld_image := PNone |}.

(** The inner [try: ... except Exception: pass] with its three
    variables. *)
Definition scan_json_ld (sp : soup) : ld_state :=
  snd (mtry (scan_scripts (ld_scripts sp)) (fun _ => mret tt) ld_init).

Definition fallback_record (url : pyval) : product :=
  {| name := PNone; price := PNone; link := url; image := PNone;
     source_url := url; raw_title := PNone |}.

(** The body of the outer [try]. *)
Definition parse_body (html url : pyval) : result product :=
  do! sp <- BeautifulSoup html;
  do! canonical <- canonical_of sp url;
  let og_title := of_opt (meta_prop sp ["og:title"; "twitter:title"; "title"]) in
  let og_image := of_opt (meta_prop sp ["og:image"; "twitter:image"; "image"]) in
  let og_price := of_opt (meta_prop sp ["product:price:amount"; "og:price:amount";
                                        "price"; "twitter:data1"]) in
  let title_tag := of_opt (title_of sp) in
  let st := scan_json_ld sp in
  let name1 := if negb (truthy (ld_name st)) then py_or og_title title_tag
               else ld_name st in
  let image1 := if negb (truthy (ld_image st)) then og_image else ld_image st in
  let price1 := if negb (truthy (ld_price st)) then og_price else ld_price st in
  let image2 := match image1 with
                | PList (x :: _) => x
                | PList [] => PNone
                | _ => image1
                end in
  Ok {| name := name1; price := price1; link := canonical; image := image2;
        source_url := url; raw_title := title_tag |}.

Definition parse_product_page (html url : pyval) : result product :=
  match parse_body html url with
  | Ok r => Ok r
  | Raise _ => Ok (fallback_record url)
  end.

Definition set_link (r : product) (v : pyval) : product :=
  {| name := name r; price := price r; link := v; image := image r;
     source_url := source_url r; raw_title := raw_title r |}.

(** The body of [for url in candidates], with its [try]. *)
Definition scrape_candidate (url : pyval) (products : list product) : M (list product) :=
  mtry
    (run! scraped <- scrape_website url;
     run! html <- mlift (if isinstance_dict scraped then
                           do! h <- py_get scraped "html";
                           Ok (py_or h (PStr ""))
                         else Ok (py_or scraped (PStr "")));
     if negb (truthy html) then mret products
     else
       run! parsed <- mlift (parse_product_page html url);
       let parsed' := if negb (truthy (link parsed)) then set_link parsed url
                      else parsed in
       mret (products ++ [parsed']))
    (fun _ => mret products).

Fixpoint scrape_loop (candidates : list pyval) (products : list product)
    : M (list product) :=
  match candidates with
  | [] => mret products
  | url :: rest =>
      run! products' <- scrape_candidate url products;
      scrape_loop rest products'
  end.

Definition fetch_products_via_scrape (query : string) (num_results : Z)
    : M (list product) :=
  run! candidates <- mtry (search_all query "" num_results) (fun _ => mret []);
  scrape_loop candidates [].

(** [w in s] for two [str] *)
Fixpoint contains (s w : string) : bool :=
  String.prefix w s
  || match s with
     | EmptyString => false
     | String _ s' => contains s' w
     end.

Definition product_keywords : list string :=
  ["laptop"; "dress"; "shoes"; "mobile"; "phone"; "gpu"; "watch";
   "bag"; "tv"; "trendy"; "fashion"; "clothes"; "tshirt"; "t-shirt"; "t shirts";
   "tshirts"; "jeans"; "under"; "budget"; "best"; "top"; "buy"].

Definition is_product_query (user_input : string) : bool :=
  existsb (fun word => contains (lower user_input) word) product_keywords.

(** The chat model object; its constructor is given the candidate
    model id (the API key and the temperature are fixed). *)
Variable chat_model : Type.
Variable ChatGoogleGenerativeAI : string -> result chat_model.

(** What [make_google_model] ends with: the model it returns, with the
    candidate that gave it, or the [RuntimeError] it raises, whose
    message quotes the last exception seen. *)
Inductive model_choice : Type :=
| Using (candidate : string) (m : chat_model)
| AllFailed (last_exc : option exn).

(** The loop of [make_google_model] over the candidates. *)
Fixpoint try_candidates (candidates : list string) (last_exc : option exn)
    : model_choice :=
  match candidates with
  | [] => AllFailed last_exc
  | candidate :: rest =>
      match ChatGoogleGenerativeAI candidate with
      | Ok model_candidate => Using candidate model_candidate
      | Raise e => try_candidates rest (Some e)
      end
  end.

Definition make_google_model (MODEL_CANDIDATES : list string) : model_choice :=
  try_candidates MODEL_CANDIDATES None.

(** [l[-n:]] for a positive [n] *)
Definition py_last_n {A} (n : nat) (l : list A) : list A :=
  drop (length l - n) l.

(** The trimming of the conversation at the top of a chat turn:
    [if len(messages) > 40: messages = [messages[0]] + messages[-20:]]. *)
Definition trim_messages {A} (messages : list A) : list A :=
  if (40 <? length messages)%nat then
    match messages with
    | first :: _ => first :: py_last_n 20 messages
    | [] => []
    end
  else messages.

(** One chat turn, as far as the conversation goes: it is trimmed,
    then the user's message is appended (both kinds of turn append
    exactly one message). *)
Definition chat_turn {A} (messages : list A) (user_message : A) : list A :=
  trim_messages messages ++ [user_message].

(** The conversation after the given user messages, one turn each. *)
Definition chat_turns {A} (messages : list A) (user_messages : list A) : list A :=
  fold_left chat_turn user_messages messages.

(** ** Notions used by the statements *)

(** Calls of the fallback search strategy so far: every call of
    [ddg_search] posts to the search page once, and nothing else
    does. *)
Definition fallback_calls (h : history) : nat :=
  count_events (is_post_to DDG_URL) h.

(** Calls of the browser strategy so far: every call of
    [scrape_with_selenium] starts the browser once, and nothing else
    does. *)
Definition browser_calls (h : history) : nat :=
  count_events is_chrome_start h.

(** The query handed to the fallback strategy. *)
Definition fallback_query (site query : string) : string :=
  (if nonempty site then "site:" +:+ site +:+ " " else "") +:+ query.

(** The link the record should carry: the [href] of the canonical
    link tag (the first in document order) resolved against the
    source URL when that tag has a non-empty [href] and the
    resolution gives a URL; the source URL itself otherwise. *)
Definition expected_link (html url : pyval) : pyval :=
  match BeautifulSoup html with
  | Ok sp =>
      match find sp "link" (attr_has "rel" "canonical") with
      | Some t =>
          match tag_get t "href" with
          | Some href =>
              if nonempty href then
                match urljoin url href with
                | Ok u => PStr u
                | Raise _ => url
                end
              else url
          | None => url
          end
      | None => url
      end
  | Raise _ => url
  end.

(** An item of a JSON-LD block that is an object of another type
    than Product. *)
Definition item_not_product (it : pyval) : bool :=
  match it with
  | PDict d =>
      match py_or (dict_get d "@type") (dict_get d "type") with
      | PList [] => false
      | PList (t :: _) => negb (is_product_type t)
      | t => negb (is_product_type t)
      end
  | _ => false
  end.

(** A script block that holds no Product: no text, text that is not
    JSON, or JSON whose items are all objects of other types. *)
Definition script_skipped (script : tag) : bool :=
  match tag_string script with
  | None => true
  | Some text =>
      negb (nonempty text)
      || match json_loads (strip text) with
         | Raise _ => true
         | Ok data =>
             forallb item_not_product
               (match data with PList l => l | _ => [data] end)
         end
  end.

(** The offers object of a Product: [offers] itself, or its first
    element when it is a list. *)
Definition first_offer (offers : pyval) : option (list (string * pyval)) :=
  match offers with
  | PDict (kv :: d) => Some (kv :: d)
  | PList (PDict off :: _) => Some off
  | _ => None
  end.

(** Its [price], or the nested [priceSpecification.price] when
    [price] is absent. *)
Definition listed_price (off : list (string * pyval)) : pyval :=
  if truthy (dict_get off "price") then dict_get off "price"
  else
    match dict_get off "priceSpecification" with
    | PDict ps => dict_get ps "price"
    | _ => PNone
    end.

(** Its currency code: [priceCurrency] or [currency]. *)
Definition listed_currency (off : list (string * pyval)) : pyval :=
  py_or (dict_get off "priceCurrency") (dict_get off "currency").

(** The price text of an offers object: the price, followed by one
    space and the currency code when there is one. *)
Definition price_text (off : list (string * pyval)) : string :=
  if truthy (listed_currency off)
  then py_str (listed_price off) +:+ " " +:+ py_str (listed_currency off)
  else py_str (listed_price off).

(** The HTML of a fetch result. *)
Definition html_of (scraped : pyval) : pyval :=
  match scraped with
  | PDict d => py_or (dict_get d "html") (PStr "")
  | _ => py_or scraped (PStr "")
  end.

(** What one candidate contributes to the result set: its record
    when the fetch returned non-empty HTML, nothing when the fetch
    raised or returned nothing. *)
Definition fetch_record (url : pyval) : M (option product) :=
  fun h =>
    match scrape_website url h with
    | (Ok scraped, h') =>
        let html := html_of scraped in
        if truthy html then
          match parse_product_page html url with
          | Ok r => (Ok (Some (if truthy (link r) then r else set_link r url)), h')
          | Raise _ => (Ok None, h')
          end
        else (Ok None, h')
    | (Raise _, h') => (Ok None, h')
    end.

(** The candidates handled one after the other, each on its own. *)
Fixpoint fetch_each (candidates : list pyval) : M (list (option product)) :=
  match candidates with
  | [] => mret []
  | url :: rest =>
      run! o <- fetch_record url;
      run! os <- fetch_each rest;
      mret (o :: os)
  end.

(** The records of the candidates that succeeded, in order. *)
Definition successes (outcomes : list (option product)) : list product :=
  omap id outcomes.

(** The number of candidates that contributed nothing. *)
Definition skipped (outcomes : list (option product)) : nat :=
  length (List.filter (fun o => match o with None => true | Some _ => false end)
            outcomes).

(** The candidate list the orchestrator works on: the search result,
    or no candidate when the search raised. *)
Definition candidates_of (query : string) (num_results : Z) : M (list pyval) :=
  mtry (search_all query "" num_results) (fun _ => mret []).

(** The strings of a list put one after the other. *)
Definition join_all (chunks : list string) : string :=
  fold_right String.append "" chunks.

Definition is_driver_quit (ev : event) : bool :=
  match ev with
  | DriverQuit => true
  | _ => false
  end.

Definition is_http_post (ev : event) : bool :=
  match ev with
  | HttpPost _ _ => true
  | _ => false
  end.

(** A value that is a [str] starting with [http]. *)
Definition is_http_url (v : pyval) : bool :=
  match v with
  | PStr s => startswith s "http"
  | _ => false
  end.

(** A value that is [None] or a [str]. *)
Definition is_optional_str (v : pyval) : bool :=
  match v with
  | PNone | PStr _ => true
  | _ => false
  end.

(** What the JSON-LD scan keeps from one state of its variables to a
    later one: a name that is set stays, and a price that is [None]
    or a [str] stays so. *)
Definition ld_keeps (st st' : ld_state) : Prop :=
  (truthy (ld_name st) = true -> ld_name st' = ld_name st)
  /\ (is_optional_str (ld_price st) = true -> is_optional_str (ld_price st') = true).

(** The record of a page whose JSON-LD gave nothing: every field from
    the meta tags and the title. *)
Definition meta_only_record (sp : soup) (url canonical : pyval) : product :=
  {| name := py_or (of_opt (meta_prop sp ["og:title"; "twitter:title"; "title"]))
                   (of_opt (title_of sp));
     price := of_opt (meta_prop sp ["product:price:amount"; "og:price:amount";
                                    "price"; "twitter:data1"]);
     link := canonical;
     image := of_opt (meta_prop sp ["og:image"; "twitter:image"; "image"]);
     source_url := url;
     raw_title := of_opt (title_of sp) |}.

(** [v[0] if v else None] for a list, [v] itself otherwise: the last
    step on the image. *)
Definition first_if_list (v : pyval) : pyval :=
  match v with
  | PList (x :: _) => x
  | PList [] => PNone
  | _ => v
  end.


(** ** A small world for the examples

    Page and script texts are short labels; the parsers below give
    each label the document it stands for. *)

Definition fx_render (v : pyval) : string :=
  match v with
  | PNone => "None"
  | PBool true => "True"
  | PBool false => "False"
  | _ => "<value>"
  end.

Definition fx_key : option string := Some "fc-test-key".

Definition fx_no_key : option string := None.

(** The search API lists one page twice. *)
Definition fx_search_json : pyval :=
  PDict [("success", PBool true);
         ("results",
          PList [PDict [("url", PStr "https://shop.example/a")];
                 PDict [("url", PStr "https://shop.example/a")];
                 PDict [("url", PStr "https://shop.example/b")]])].

Definition fx_post (h : history) (endpoint : string) (payload : pyval)
    : result response :=
  if String.eqb endpoint FIRECRAWL_SEARCH_URL then
    Ok {| status_code := 200; resp_json := Ok fx_search_json; resp_text := "" |}
  else if String.eqb endpoint DDG_URL then
    Ok {| status_code := 200; resp_json := Raise (LibraryError "JSONDecodeError");
          resp_text := "results page" |}
  else
    Ok {| status_code := 402; resp_json := Ok (PDict [("success", PBool false)]);
          resp_text := "" |}.

Definition fx_anchor (href : string) : tag :=
  {| tag_name := "a"; tag_attrs := [("class", "result__a"); ("href", href)];
     tag_string := Some "result" |}.

Definition fx_title (text : string) : tag :=
  {| tag_name := "title"; tag_attrs := []; tag_string := Some text |}.

Definition fx_ld_script (text : string) : tag :=
  {| tag_name := "script"; tag_attrs := [("type", "application/ld+json")];
     tag_string := Some text |}.

Definition fx_soup (markup : pyval) : result soup :=
  match markup with
  | PStr s =>
      if String.eqb s "results page" then
        Ok [fx_title "phone at DuckDuckGo";
            fx_anchor "/settings";
            fx_anchor "https://shop.example/1";
            fx_anchor "https://shop.example/2";
            fx_anchor "https://shop.example/3";
            fx_anchor "https://shop.example/4";
            fx_anchor "https://shop.example/5";
            fx_anchor "https://shop.example/6";
            fx_anchor "https://shop.example/7"]
      else if String.eqb s "widget page" then
        Ok [fx_ld_script "widget json"]
      else if String.eqb s "two products page" then
        Ok [fx_title "Phone";
            fx_ld_script "phone json";
            fx_ld_script "phone case json"]
      else if String.eqb s "gadget page" then
        Ok [{| tag_name := "meta";
               tag_attrs := [("property", "og:title"); ("content", "Gadget")];
               tag_string := None |};
            {| tag_name := "link";
               tag_attrs := [("rel", "canonical"); ("href", "/p/123")];
               tag_string := None |}]
      else Ok [fx_title s]
  | _ => Raise TypeError
  end.

Definition fx_json_loads (text : string) : result pyval :=
  if String.eqb text "widget json" then
    Ok (PDict [("@context", PStr "https://schema.org");
               ("@type", PStr "Product");
               ("name", PStr "Widget");
               ("offers", PDict [("@type", PStr "Offer");
                                 ("price", PStr "19.99");
                                 ("priceCurrency", PStr "USD")])])
  else if String.eqb text "phone json" then
    Ok (PDict [("@type", PStr "Product");
               ("name", PStr "Phone");
               ("image", PStr "https://shop.example/phone.png");
               ("offers", PDict [("price", PStr "499");
                                 ("priceCurrency", PStr "USD")])])
  else if String.eqb text "phone case json" then
    Ok (PDict [("@type", PStr "Product");
               ("name", PStr "Phone case");
               ("image", PStr "https://shop.example/case.png");
               ("offers", PDict [("price", PStr "9.99");
                                 ("priceCurrency", PStr "USD")])])
  else Raise (LibraryError "JSONDecodeError").

Definition fx_urljoin (base : pyval) (href : string) : result string :=
  match base with
  | PStr b =>
      if startswith href "http" then Ok href
      else if String.eqb b "https://shop.example/page" && String.eqb href "/p/123"
      then Ok "https://shop.example/p/123"
      else Raise (LibraryError "ValueError")
  | _ => Raise TypeError
  end.

Definition fx_valid (u : string) : bool :=
  startswith u "http://" || startswith u "https://".

Definition fx_chrome_start (h : history) : result unit := Ok tt.

(** The second shop page cannot be loaded. *)
Definition fx_driver_get (h : history) (url : string) : result unit :=
  if String.eqb url "https://shop.example/2"
  then Raise (LibraryError "WebDriverException")
  else Ok tt.

(** The browser shows the page it was last sent to; the fifth shop
    page renders nothing. *)
Definition fx_page_source (h : history) : result string :=
  match h with
  | DriverGet url :: _ =>
      if String.eqb url "https://shop.example/5" then Ok ""
      else Ok ("page of " +:+ url)
  | _ => Raise (LibraryError "WebDriverException")
  end.

Definition fx_driver_quit (h : history) : result unit := Ok tt.

(** The world whose every request gets the same answer. *)
Definition fx_post_answer (answer : result response) (h : history)
    (endpoint : string) (payload : pyval) : result response :=
  answer.

(** A 200 answer whose JSON is an array of URLs, not an object. *)
Definition fx_array_response : response :=
  {| status_code := 200;
     resp_json := Ok (PList [PStr "https://shop.example/a"; PStr "https://shop.example/b"]);
     resp_text := "" |}.

Definition fx_unavailable_response : response :=
  {| status_code := 503; resp_json := Raise (LibraryError "JSONDecodeError");
     resp_text := "Service Unavailable" |}.



(** Only the fourth configured model id can be constructed. *)
Definition fx_chat_model (candidate : string) : result string :=
  if String.eqb candidate "gemini-pro" then Ok "client for gemini-pro"
  else Raise (LibraryError "NotFound").

Definition fx_model_candidates : list string :=
  ["gemini-1.5-flash"; "gemini-1.5"; "gemini-1.0"; "gemini-pro"; "gemini-1.5-preview"].

(** A validator that refuses URLs with a space. *)
Definition fx_no_spaces (u : string) : bool := negb (contains u " ").

(** The Widget page with a second Product block after the Widget. *)
Definition fx_soup_pair (markup : pyval) : result soup :=
  match markup with
  | PStr s =>
      if String.eqb s "widget and case page" then
        Ok [fx_ld_script "widget json"; fx_ld_script "phone case json"]
      else fx_soup markup
  | _ => Raise TypeError
  end.

(** * Properties *)

(** Propositional reasoning that leaves the library functions of the
    section alone. *)
Ltac world_free_tauto :=
  repeat match goal with
         | H : _ -> result _ |- _ => clear H
         | H : Type |- _ => clear H
         end;
  tauto.

(** ** Steps of monadic code *)

Lemma mbind_lift_ok {S A B} (a : A) (k : A -> ST S B) (s : S) :
  mbind (mlift (Ok a)) k s = k a s.
Proof. reflexivity. Qed.

Lemma mbind_get {S B} (k : S -> ST S B) (s : S) :
  mbind mget k s = k s s.
Proof. reflexivity. Qed.

Lemma mbind_ok {S A B} (m : ST S A) (k : A -> ST S B) (s s' : S) (a : A) :
  m s = (Ok a, s') -> mbind m k s = k a s'.
Proof. intros H. unfold mbind. by rewrite H. Qed.

Lemma py_get_dict (d : list (string * pyval)) (k : string) :
  py_get (PDict d) k = Ok (dict_get d k).
Proof. reflexivity. Qed.

Lemma py_or_lazy_ok (a b : pyval) : py_or_lazy a (Ok b) = Ok (py_or a b).
Proof. unfold py_or_lazy, py_or. by destruct (truthy a). Qed.

(** ** Stripping *)

Lemma lstrip_head (s : string) :
  lstrip s = "" \/ exists c r, lstrip s = String c r /\ isspace c = false.
Proof.
  induction s as [|c s IH]; simpl; [by left|].
  destruct (isspace c) eqn:E; [exact IH|].
  right. by exists c, s.
Qed.

Lemma rstrip_head (c : ascii) (s : string) :
  rstrip (String c s) = "" \/ exists r, rstrip (String c s) = String c r.
Proof.
  simpl. destruct (rstrip s).
  - destruct (isspace c); [by left|right; by eexists].
  - right. by eexists.
Qed.

Lemma rstrip_idem (s : string) : rstrip (rstrip s) = rstrip s.
Proof.
  induction s as [|c s IH]; simpl; [done|].
  destruct (rstrip s) as [|d r] eqn:E.
  - destruct (isspace c) eqn:Ec; simpl; [done|by rewrite Ec].
  - change (rstrip (String c (String d r))) with
      (match rstrip (String d r) with
       | EmptyString => if isspace c then EmptyString else String c EmptyString
       | r0 => String c r0
       end).
    by rewrite IH.
Qed.

Lemma strip_head (s : string) :
  strip s = "" \/ exists c r, strip s = String c r /\ isspace c = false.
Proof.
  unfold strip.
  destruct (lstrip_head s) as [->|(c & r & -> & Hc)]; [by left|].
  destruct (rstrip_head c r) as [->|[r' ->]]; [by left|].
  right. by exists c, r'.
Qed.

Lemma strip_idem (s : string) : strip (strip s) = strip s.
Proof.
  destruct (strip_head s) as [->|(c & r & E & Hc)]; [done|].
  unfold strip at 1. rewrite E. simpl lstrip. rewrite Hc, <- E.
  unfold strip. apply rstrip_idem.
Qed.

Lemma rstrip_app (p t : string) :
  t <> "" -> rstrip t = t -> rstrip (p +:+ t) = p +:+ t.
Proof.
  intros Ht Hr. induction p as [|c p IH]; [done|].
  change (String c p +:+ t) with (String c (p +:+ t)).
  simpl. rewrite IH.
  destruct (p +:+ t) eqn:E; [|done].
  destruct p; [by change t with ("" +:+ t) in Ht|].
  change (String a p +:+ t) with (String a (p +:+ t)) in E. discriminate.
Qed.

Lemma nonempty_true (s : string) : nonempty s = true <-> s <> "".
Proof. destruct s; simpl; split; congruence. Qed.

Lemma rstrip_nonempty (s : string) :
  whitespace_only s = false -> rstrip s <> "".
Proof.
  induction s as [|c s IH]; simpl; [done|].
  destruct (isspace c) eqn:Ec; simpl.
  - intros H. destruct (rstrip s) eqn:E; [by apply IH in H|done].
  - intros _. by destruct (rstrip s).
Qed.

Lemma strip_empty_iff (s : string) : strip s = "" <-> whitespace_only s = true.
Proof.
  unfold strip. induction s as [|c s IH]; simpl; [done|].
  destruct (isspace c) eqn:Ec; simpl; [exact IH|].
  split; [|done]. change (match rstrip s with
                          | "" => if isspace c then "" else String c ""
                          | String a s0 => String c (String a s0)
                          end) with (rstrip (String c s)).
  intros H. exfalso. revert H. apply rstrip_nonempty. simpl. by rewrite Ec.
Qed.

(** ** The URL normalizer *)

Lemma normalize_url_str (s : string) :
  normalize_url (PStr s) =
    if nonempty (strip s) then
      if negb (startswith (strip s) "http://") && negb (startswith (strip s) "https://")
      then Some ("https://" +:+ strip s)
      else Some (strip s)
    else None.
Proof.
  unfold normalize_url. simpl py_str.
  destruct s as [|c s]; [done|].
  change (truthy (PStr (String c s))) with true. simpl negb at 1. cbv iota.
  by destruct (nonempty (strip (String c s))).
Qed.

Lemma startswith_app (p t : string) : startswith (p +:+ t) p = true.
Proof.
  unfold startswith. induction p as [|c p IH]; [by destruct t|].
  change (String c p +:+ t) with (String c (p +:+ t)). simpl.
  by destruct (ascii_dec c c).
Qed.

Lemma strip_scheme_app (t : string) :
  strip ("https://" +:+ strip t) = "https://" +:+ strip t.
Proof.
  destruct (strip t) as [|c r] eqn:E; [done|].
  unfold strip at 1.
  change (lstrip ("https://" +:+ String c r)) with ("https://" +:+ String c r).
  apply rstrip_app; [done|].
  rewrite <- E. unfold strip. apply rstrip_idem.
Qed.

(** C6. [normalize_url] rejects (returns no URL for) empty and
    whitespace-only input, and the top-level scraper then raises the
    invalid-URL error ([ValueError]) without touching the network; on
    any other input whose trimmed form lacks the [http://] and
    [https://] prefixes it answers [https://] followed by the trimmed
    input, and the trimmed input itself when a prefix is there.  It is
    a total function outside the monad of external actions.  In
    particular [""] and ["   "] are rejected and ["example.com/x"]
    gives ["https://example.com/x"]. *)
Theorem normalize_url_contract (s : string) :
  (whitespace_only s = true ->
     normalize_url (PStr s) = None /\
     forall h : history,
       exists msg, scrape_website (PStr s) h = (Raise (ValueError msg), h))
  /\ (whitespace_only s = false ->
      startswith (strip s) "http://" = false ->
      startswith (strip s) "https://" = false ->
      normalize_url (PStr s) = Some ("https://" +:+ strip s))
  /\ (whitespace_only s = false ->
      startswith (strip s) "http://" = true \/ startswith (strip s) "https://" = true ->
      normalize_url (PStr s) = Some (strip s))
  /\ normalize_url (PStr "") = None
  /\ normalize_url (PStr "   ") = None
  /\ normalize_url (PStr "example.com/x") = Some "https://example.com/x".
Proof.
  split; [|split; [|split; [|by repeat split]]].
  - intros Hs. apply strip_empty_iff in Hs.
    assert (normalize_url (PStr s) = None) as Hnone.
    { by rewrite normalize_url_str, Hs. }
    split; [done|].
    intros h. unfold scrape_website. rewrite Hnone.
    destruct (truthy (PStr s)); by eexists.
  - intros Hs H1 H2. rewrite normalize_url_str, H1, H2. simpl.
    destruct (nonempty (strip s)) eqn:E; [done|].
    destruct (strip s) eqn:E'; [|done].
    apply strip_empty_iff in E'. congruence.
  - intros Hs Hp. rewrite normalize_url_str.
    destruct (nonempty (strip s)) eqn:E.
    + by destruct Hp as [-> | ->]; simpl; rewrite ?andb_false_r.
    + destruct (strip s) eqn:E'; [|done].
      apply strip_empty_iff in E'. congruence.
Qed.

(** C10. [normalize_url] is idempotent on its successes: when it
    answers a URL [u] for some input, it answers [u] again for [u]. *)
Theorem normalize_url_idempotent (url : pyval) (u : string) :
  normalize_url url = Some u -> normalize_url (PStr u) = Some u.
Proof.
  unfold normalize_url at 1.
  destruct (negb (truthy url)); [done|].
  set (t := strip (py_str url)).
  destruct (nonempty t) eqn:Ht; simpl; [|done].
  apply nonempty_true in Ht.
  destruct (negb (startswith t "http://") && negb (startswith t "https://")) eqn:Hp;
    intros [= <-]; rewrite normalize_url_str.
  - subst t. rewrite strip_scheme_app.
    rewrite (startswith_app "https://"). rewrite andb_false_r.
    by destruct (strip (py_str url)).
  - subst t. rewrite strip_idem. rewrite Hp.
    by destruct (strip (py_str url)).
Qed.

(** ** Deduplication in the search strategies *)

Lemma dedupe_loop_NoDup (us uniq : list string) (seen : gset string) :
  (forall x, x ∈ seen <-> x ∈ uniq) ->
  NoDup uniq ->
  NoDup (dedupe_loop us uniq seen).
Proof.
  revert uniq seen. induction us as [|u us IH]; intros uniq seen Hseen Hnd; [done|].
  simpl. case_bool_decide as Hu; [by apply IH|].
  apply IH.
  - intros x. rewrite elem_of_union, elem_of_singleton, elem_of_app, list_elem_of_singleton.
    rewrite Hseen. world_free_tauto.
  - apply NoDup_app. split; [done|]. split; [|apply NoDup_singleton].
    intros x Hx Hx'. apply list_elem_of_singleton in Hx' as ->.
    apply Hu. by apply Hseen.
Qed.

Lemma dedupe_NoDup (us : list string) : NoDup (dedupe us).
Proof.
  apply dedupe_loop_NoDup; [|constructor].
  intros x. rewrite elem_of_nil. split; [|done]. apply not_elem_of_empty.
Qed.

Lemma py_slice_to_sublist {A} (xs : list A) (n : Z) : sublist (py_slice_to xs n) xs.
Proof. unfold py_slice_to. destruct (0 <=? n); apply sublist_take. Qed.

Lemma py_slice_to_length {A} (xs : list A) (n : Z) :
  0 <= n -> Z.of_nat (length (py_slice_to xs n)) <= n.
Proof.
  intros Hn. unfold py_slice_to.
  destruct (0 <=? n) eqn:E; [|lia]. rewrite length_take. lia.
Qed.

Lemma deduped_slice_ok (us : list string) (n : Z) :
  NoDup (map PStr (py_slice_to (dedupe us) n))
  /\ (0 <= n -> Z.of_nat (length (map PStr (py_slice_to (dedupe us) n))) <= n).
Proof.
  split.
  - change (NoDup (PStr <$> py_slice_to (dedupe us) n)).
    apply NoDup_fmap_2; [by intros ?? [=]|].
    eapply sublist_NoDup; [apply dedupe_NoDup|apply py_slice_to_sublist].
  - intros Hn. rewrite length_map. by apply py_slice_to_length.
Qed.

(** The fallback strategy does return at most [n] URLs without
    duplicates. *)
Lemma ddg_search_deduped (query : string) (n : Z) (h h' : history) (r : list pyval) :
  ddg_search query n h = (Ok r, h') ->
  NoDup r /\ (0 <= n -> Z.of_nat (length r) <= n).
Proof.
  unfold ddg_search, mbind, mtry, perform, mret, mlift.
  destruct (requests_post h _ _) as [resp|e].
  - destruct (raise_for_status resp) as [[]|e].
    + destruct (BeautifulSoup _) as [sp|e]; [|done].
      intros [= <- _]. apply deduped_slice_ok.
    + intros [= <- _]. split; [constructor|simpl; lia].
  - intros [= <- _]. split; [constructor|simpl; lia].
Qed.

(** So does the primary strategy when it has to walk the whole
    answer; only its branch over the known keys does not dedupe. *)
Lemma firecrawl_search_walk_deduped (data : pyval) (n : Z) :
  NoDup (map PStr (py_slice_to (dedupe (extract_urls_from_obj data)) n))
  /\ (0 <= n ->
      Z.of_nat (length (map PStr (py_slice_to (dedupe (extract_urls_from_obj data)) n)))
      <= n).
Proof. apply deduped_slice_ok. Qed.

(** The length bound holds on every path of the search chain. *)
Lemma scan_keys_length (data : pyval) (keys : list string) (results r : list pyval)
    (n : Z) :
  0 <= n ->
  scan_keys data keys results n = Ok (Some r) ->
  Z.of_nat (length r) <= n.
Proof.
  intros Hn. revert results. induction keys as [|key keys IH]; intros results; [done|].
  simpl. destruct (py_get data key) as [v|e]; [|done]. simpl.
  destruct (isinstance_list v); [|apply IH].
  destruct (py_get_default data key _) as [arr|e]; [|done]. simpl.
  destruct (py_iter arr) as [items|e]; [|done]. simpl.
  destruct (collect_urls items results) as [|x xs] eqn:E; [apply IH|].
  intros [= <-]. by apply py_slice_to_length.
Qed.

Lemma search_all_length (query site : string) (n : Z) (h h' : history)
    (r : list pyval) :
  0 <= n ->
  search_all query site n h = (Ok r, h') ->
  Z.of_nat (length r) <= n.
Proof.
  intros Hn. unfold search_all, mbind at 1.
  destruct (firecrawl_search query site n h) as [[fc|e] h1] eqn:Efc; [|done].
  destruct fc as [|x fc]; [by intros H%ddg_search_deduped%proj2%(fun f => f Hn)|].
  intros [= <- _]. revert Efc. unfold firecrawl_search.
  destruct (negb (key_present FIRECRAWL_API_KEY)); [done|].
  unfold mbind, mtry, perform, mret, mlift.
  destruct (requests_post h _ _) as [resp|e]; [|done].
  destruct (negb (status_code resp =? 200)); [done|].
  destruct (resp_json resp) as [data|e]; [|done].
  destruct (scan_keys data _ _ n) as [[keyed|]|e] eqn:Ek; [| |done].
  - intros [= <- _]. by eapply scan_keys_length.
  - intros [= <- _]. by apply deduped_slice_ok.
Qed.

(** ** The search chain *)

Lemma firecrawl_search_posts (query site : string) (n : Z) (h : history) :
  snd (firecrawl_search query site n h) = h
  \/ exists payload,
      snd (firecrawl_search query site n h) = HttpPost FIRECRAWL_SEARCH_URL payload :: h.
Proof.
  unfold firecrawl_search.
  destruct (negb (key_present FIRECRAWL_API_KEY)); [by left|].
  right. eexists.
  unfold mbind, mtry, perform, mret, mlift.
  destruct (requests_post h _ _) as [resp|e]; [|done].
  destruct (negb (status_code resp =? 200)); [done|].
  destruct (resp_json resp) as [data|e]; [|done].
  destruct (scan_keys data _ _ n) as [[r|]|e]; done.
Qed.

Lemma ddg_search_posts (query : string) (n : Z) (h : history) :
  snd (ddg_search query n h) = HttpPost DDG_URL (ddg_payload query) :: h.
Proof.
  unfold ddg_search, mbind, mtry, perform, mret, mlift.
  destruct (requests_post h _ _) as [resp|e]; [|done].
  destruct (raise_for_status resp) as [[]|e]; [|done].
  by destruct (BeautifulSoup _).
Qed.

Lemma firecrawl_search_fallback_calls (query site : string) (n : Z) (h : history) :
  fallback_calls (snd (firecrawl_search query site n h)) = fallback_calls h.
Proof.
  destruct (firecrawl_search_posts query site n h) as [->|[payload ->]]; done.
Qed.

(** C7. When the primary search strategy returns a non-empty list,
    [search_all] returns that list and the fallback strategy is not
    called; when it returns no candidate, [search_all] calls the
    fallback strategy exactly once and returns whatever that call
    gives, an empty list included. *)
Theorem search_all_chain (query site : string) (n : Z) (h h1 : history)
    (fc : list pyval) :
  firecrawl_search query site n h = (Ok fc, h1) ->
  (fc <> [] ->
     search_all query site n h = (Ok fc, h1)
     /\ fallback_calls h1 = fallback_calls h)
  /\ (fc = [] ->
      search_all query site n h = ddg_search (fallback_query site query) n h1
      /\ fallback_calls (snd (search_all query site n h)) = S (fallback_calls h)
      /\ (forall h2, ddg_search (fallback_query site query) n h1 = (Ok [], h2) ->
          search_all query site n h = (Ok [], h2))).
Proof.
  intros Hfc.
  pose proof (firecrawl_search_fallback_calls query site n h) as Hcalls.
  rewrite Hfc in Hcalls. simpl in Hcalls.
  split.
  - intros Hne. split; [|done].
    unfold search_all, mbind. rewrite Hfc. by destruct fc.
  - intros ->.
    assert (search_all query site n h = ddg_search (fallback_query site query) n h1) as E.
    { unfold search_all, mbind. by rewrite Hfc. }
    split; [done|]. split.
    + rewrite E, ddg_search_posts. unfold fallback_calls, count_events in *.
      simpl. by rewrite Hcalls.
    + intros h2 H2. by rewrite E.
Qed.

(** ** The content-fetch chain *)

Lemma scrape_with_firecrawl_ok (u : string) (h : history) :
  exists html h1,
    scrape_with_firecrawl u h = (Ok html, h1)
    /\ browser_calls h1 = browser_calls h.
Proof.
  unfold scrape_with_firecrawl.
  destruct (negb (key_present FIRECRAWL_API_KEY)); [by eexists _, _|].
  unfold mtry, mbind, perform, mlift, mret.
  destruct (requests_post h _ _) as [resp|e]; [|by eexists _, _].
  destruct (raise_for_status resp) as [[]|e]; [|by eexists _, _].
  destruct (resp_json resp) as [data|e]; [|by eexists _, _].
  match goal with |- context [match ?r with Ok _ => _ | Raise _ => _ end] =>
    destruct r as [v|e] end; by eexists _, _.
Qed.

Lemma scrape_with_selenium_calls (u : string) (h : history) :
  browser_calls (snd (scrape_with_selenium u h)) = S (browser_calls h).
Proof.
  unfold scrape_with_selenium, mbind, mfinally, mtry, perform, mret.
  destruct (chrome_start h) as [[]|e]; [|done].
  destruct (driver_get _ u) as [[]|e].
  - destruct (driver_page_source _); by destruct (driver_quit _) as [[]|?].
  - by destruct (driver_quit _) as [[]|?].
Qed.

(** C3, amended. For a URL that normalizes to [u] and passes the
    optional validation, the API strategy never raises; when its
    HTML is non-empty the chain returns it and the browser is not
    started; otherwise the chain calls the browser strategy exactly
    once and answers exactly what that call gives: its page source
    as it is, empty or not, or the exception it raised, unchanged. *)
Theorem fetch_chain (url : pyval) (u : string) (h : history) :
  normalize_url url = Some u ->
  match validators_url with Some valid => valid u = true | None => True end ->
  exists html h1,
    scrape_with_firecrawl u h = (Ok html, h1)
    /\ (truthy html = true ->
          scrape_website url h = (Ok html, h1)
          /\ browser_calls h1 = browser_calls h)
    /\ (truthy html = false ->
          scrape_website url h =
            match scrape_with_selenium u h1 with
            | (Ok page, h2) => (Ok (PStr page), h2)
            | (Raise e, h2) => (Raise e, h2)
            end
          /\ browser_calls (snd (scrape_website url h)) = S (browser_calls h)).
Proof.
  intros Hn Hv.
  destruct (scrape_with_firecrawl_ok u h) as (html & h1 & Hfc & Hcalls).
  exists html, h1. split; [done|].
  assert (truthy url = true) as Ht.
  { unfold normalize_url in Hn. by destruct (truthy url). }
  assert (nonempty u = true) as Hu.
  { unfold normalize_url in Hn. rewrite Ht in Hn. simpl in Hn.
    destruct (nonempty (strip (py_str url))) eqn:E; [|done]. simpl in Hn.
    destruct (_ && _) in Hn; injection Hn as <-; [done|exact E]. }
  assert (scrape_website url h =
          mbind (scrape_with_firecrawl u)
            (fun html => if truthy html then mret html
                         else mbind (scrape_with_selenium u) (fun page => mret (PStr page))) h)
    as E.
  { unfold scrape_website. rewrite Ht, Hn, Hu. simpl.
    destruct validators_url as [valid|]; [by rewrite Hv|done]. }
  split.
  - intros Hh. split; [|done].
    rewrite E. unfold mbind. by rewrite Hfc, Hh.
  - intros Hh.
    assert (scrape_website url h =
            match scrape_with_selenium u h1 with
            | (Ok page, h2) => (Ok (PStr page), h2)
            | (Raise e, h2) => (Raise e, h2)
            end) as E'.
    { rewrite E. unfold mbind at 1. rewrite Hfc, Hh. unfold mbind, mret.
      by destruct (scrape_with_selenium u h1) as [[page|e] h2]. }
    split; [done|].
    rewrite E'. pose proof (scrape_with_selenium_calls u h1) as Hs.
    destruct (scrape_with_selenium u h1) as [[page|e] h2]; simpl in *; congruence.
Qed.

(** ** The extractor *)

Lemma parse_body_raises (html url : pyval) (e : exn) :
  parse_body html url = Raise e <->
  BeautifulSoup html = Raise e
  \/ exists sp, BeautifulSoup html = Ok sp /\ canonical_of sp url = Raise e.
Proof.
  unfold parse_body.
  destruct (BeautifulSoup html) as [sp|e0]; simpl.
  - destruct (canonical_of sp url) as [c|e1] eqn:Ec; simpl.
    + split; [done|]. intros [|(sp' & [= <-] & H)]; [done|congruence].
    + split.
      * intros [= ->]. right. by exists sp.
      * intros [|(sp' & [= <-] & H)]; [done|congruence].
  - split.
    + intros [= ->]. by left.
    + intros [[= ->]|(sp' & H & _)]; done.
Qed.

Lemma parse_product_page_ok (html url : pyval) :
  exists r, parse_product_page html url = Ok r.
Proof.
  unfold parse_product_page. destruct (parse_body html url); by eexists.
Qed.

(** C1. [parse_product_page] returns a record for every input and
    never raises.  Its body fails as a whole only when the HTML
    parser raises or the canonical link cannot be resolved, and then
    the record has every field absent except [link] and
    [source_url], both set to the input URL. *)
Theorem extract_never_raises (html url : pyval) :
  exists r,
    parse_product_page html url = Ok r
    /\ (forall e, parse_body html url = Raise e ->
          r = {| name := PNone; price := PNone; link := url; image := PNone;
                 source_url := url; raw_title := PNone |})
    /\ (forall e, parse_body html url = Raise e <->
          BeautifulSoup html = Raise e
          \/ exists sp, BeautifulSoup html = Ok sp /\ canonical_of sp url = Raise e).
Proof.
  unfold parse_product_page.
  destruct (parse_body html url) as [r|e0] eqn:E.
  - exists r. split; [done|]. split; [done|].
    intros e. rewrite <- E. apply parse_body_raises.
  - eexists. split; [done|]. split; [done|].
    intros e. rewrite <- E. apply parse_body_raises.
Qed.

(** C9. The record's [link] is the [href] of the canonical link tag
    resolved against the source URL when that tag has a non-empty
    [href], and the source URL otherwise; [source_url] is the input
    URL.  So for a source URL that is there, neither is absent, on
    every path. *)
Theorem link_is_canonical_or_source (html url : pyval) :
  exists r,
    parse_product_page html url = Ok r
    /\ link r = expected_link html url
    /\ source_url r = url
    /\ (url <> PNone -> link r <> PNone /\ source_url r <> PNone).
Proof.
  assert (exists r, parse_product_page html url = Ok r
                    /\ link r = expected_link html url /\ source_url r = url)
    as (r & Hr & Hl & Hs).
  { unfold parse_product_page, parse_body, expected_link, canonical_of.
    destruct (BeautifulSoup html) as [sp|e]; simpl; [|by eexists].
    destruct (find sp "link" _) as [t|]; simpl; [|by eexists].
    destruct (tag_get t "href") as [href|]; simpl; [|by eexists].
    destruct (nonempty href); simpl; [|by eexists].
    destruct (urljoin url href) as [u|e]; simpl; by eexists. }
  exists r. split; [done|]. split; [done|]. split; [done|].
  intros Hu. rewrite Hl, Hs. split; [|done].
  unfold expected_link. repeat case_match; done.
Qed.

Lemma scan_scripts_block (script : tag) (rest : list tag) (text : string)
    (data : pyval) (st : ld_state) :
  tag_string script = Some text ->
  nonempty text = true ->
  json_loads (strip text) = Ok data ->
  scan_scripts (script :: rest) st =
    mbind (scan_items (match data with PList l => l | _ => [data] end))
      (fun _ => scan_scripts rest) st.
Proof. intros Ht Hn Hj. simpl. by rewrite Ht, Hn, Hj. Qed.

Lemma scan_items_break (it : pyval) (rest : list pyval) (st st' : ld_state) :
  process_item it st = (Ok true, st') ->
  scan_items (it :: rest) st = (Ok tt, st').
Proof. intros H. simpl. unfold mbind. by rewrite H. Qed.

Lemma scan_items_next (it : pyval) (rest : list pyval) (st st' : ld_state) :
  process_item it st = (Ok false, st') ->
  scan_items (it :: rest) st = scan_items rest st'.
Proof. intros H. simpl. unfold mbind. by rewrite H. Qed.

Lemma listed_price_eval (off : list (string * pyval)) :
  truthy (listed_price off) = true ->
  py_or_lazy (dict_get off "price")
    (do! ps <- py_get (PDict off) "priceSpecification";
     py_get (py_or ps (PDict [])) "price") = Ok (listed_price off).
Proof.
  unfold listed_price, py_or_lazy.
  destruct (truthy (dict_get off "price")); [done|]. simpl.
  destruct (dict_get off "priceSpecification") as [| | | | |?|[|kv psd]]; done.
Qed.

Lemma process_item_not_product (it : pyval) (st : ld_state) :
  item_not_product it = true -> process_item it st = (Ok false, st).
Proof.
  destruct it as [| | | | | |d]; try done. unfold item_not_product, process_item.
  rewrite !py_get_dict, mbind_lift_ok, py_or_lazy_ok, mbind_lift_ok.
  destruct (py_or (dict_get d "@type") (dict_get d "type")) as [| | | | |[|t l]|?];
    try done; simpl isinstance_list; cbv iota; simpl py_item0;
    rewrite mbind_lift_ok; intros H; apply negb_true_iff in H; by rewrite H.
Qed.

Lemma scan_items_not_product (items : list pyval) (st : ld_state) :
  forallb item_not_product items = true -> scan_items items st = (Ok tt, st).
Proof.
  induction items as [|it items IH]; [done|].
  intros H. apply andb_prop in H as [Hit Hrest].
  rewrite (scan_items_next it items st st) by (by apply process_item_not_product).
  by apply IH.
Qed.

Lemma scan_scripts_skipped (pre rest : list tag) (st : ld_state) :
  forallb script_skipped pre = true ->
  scan_scripts (pre ++ rest) st = scan_scripts rest st.
Proof.
  induction pre as [|a pre IH]; simpl; intros H; [done|].
  apply andb_prop in H as [Ha Hpre]. unfold script_skipped in Ha.
  destruct (tag_string a) as [text|]; [|by apply IH].
  destruct (nonempty text); simpl in *; [|by apply IH].
  destruct (json_loads (strip text)) as [data|e]; [|by apply IH].
  erewrite mbind_ok by (by apply scan_items_not_product).
  by apply IH.
Qed.

Lemma process_offers_listed (ov : pyval) (off : list (string * pyval))
    (st : ld_state) :
  first_offer ov = Some off ->
  truthy (listed_price off) = true ->
  py_str (listed_price off) <> "" ->
  process_offers ov st =
    (Ok tt, {| ld_name := ld_name st; ld_price := PStr (price_text off);
               ld_image := ld_image st |}).
Proof.
  intros Hov Hp Hs.
  assert ((if isinstance_list ov then py_item0 ov else Ok ov) = Ok (PDict off)) as E.
  { destruct ov as [| | | | |[|[| | | | | |o] l]|[|kv d]]; simpl in *; congruence. }
  assert (truthy (PStr (py_str (listed_price off))) = true) as Hpt.
  { by destruct (py_str (listed_price off)). }
  unfold process_offers. rewrite E, mbind_lift_ok.
  rewrite (py_get_dict off "price"), mbind_lift_ok.
  rewrite (listed_price_eval off Hp), mbind_lift_ok, Hp.
  erewrite mbind_ok by reflexivity.
  rewrite !py_get_dict, mbind_lift_ok.
  rewrite py_or_lazy_ok. fold (listed_currency off).
  rewrite mbind_lift_ok, mbind_get. cbn [ld_price py_str]. rewrite Hpt, andb_true_r.
  unfold price_text. by destruct (truthy (listed_currency off)).
Qed.

Lemma image_step (img : pyval) (st : ld_state) :
  exists v,
    (if truthy img then
       if isinstance_list img then
         run! x <- mlift (py_item0 img);
         set_image x
       else set_image img
     else mret tt) st =
    (Ok tt, {| ld_name := ld_name st; ld_price := ld_price st; ld_image := v |}).
Proof.
  destruct st as [n p i].
  destruct img as [|[]|z|f|[|? ?]|[|x l]|[|kv d]]; simpl;
    try destruct (negb (z =? 0)); try destruct f; by eexists.
Qed.

Lemma process_item_product (d : list (string * pyval)) (ty nm : string)
    (off : list (string * pyval)) (st : ld_state) :
  dict_get d "@type" = PStr ty ->
  lower ty = "product" ->
  truthy (ld_name st) = false ->
  dict_get d "name" = PStr nm ->
  nm <> "" ->
  first_offer (dict_get d "offers") = Some off ->
  truthy (listed_price off) = true ->
  py_str (listed_price off) <> "" ->
  exists img,
    process_item (PDict d) st =
      (Ok true, {| ld_name := PStr nm; ld_price := PStr (price_text off);
                   ld_image := img |}).
Proof.
  intros Hty Hlow Hst Hnm Hne Hov Hp Hs.
  assert (truthy (PStr ty) = true) as Htt by (by destruct ty).
  assert (truthy (dict_get d "offers") = true) as Hot.
  { destruct (dict_get d "offers") as [| | | | |[|? ?]|[|? ?]]; done. }
  assert (truthy (PStr nm) = true) as Hnt by (by destruct nm).
  assert (is_product_type (PStr ty) = true) as Hprod.
  { unfold is_product_type. rewrite Htt. simpl py_str. by rewrite Hlow. }
  unfold process_item. rewrite !py_get_dict, Hty, mbind_lift_ok.
  unfold py_or_lazy at 1. rewrite Htt, mbind_lift_ok.
  simpl isinstance_list. cbv iota. rewrite mbind_lift_ok, Hprod.
  rewrite mbind_get, Hst. simpl negb. cbv iota.
  erewrite mbind_ok by (rewrite mbind_lift_ok, Hnm; reflexivity).
  rewrite mbind_lift_ok, Hot.
  erewrite mbind_ok by (by apply process_offers_listed).
  cbn [ld_name ld_image]. rewrite mbind_lift_ok.
  destruct (image_step (dict_get d "image")
              {| ld_name := PStr nm; ld_price := PStr (price_text off);
                 ld_image := ld_image st |}) as (img & Himg).
  erewrite mbind_ok by exact Himg.
  rewrite mbind_get. cbn [ld_name]. rewrite Hnt. by exists img.
Qed.

(** X29. When the page has one JSON-LD block with a Product (the
    other blocks being empty, not JSON, or objects of other types),
    and that Product has a name and an offers object (the first element when
    [offers] is a list) whose price ([price], or
    [priceSpecification.price] when [price] is absent) is there, the
    record carries that name, and its price is the price followed,
    when a currency code is present, by one space and the code: name
    "Widget", price "19.99" and currency "USD" give "Widget" and
    "19.99 USD".  Meta tags, present or not, do not matter. *)
Theorem product_block_name_and_price (html url c : pyval) (sp : soup)
    (pre post : list tag) (script : tag) (text ty nm : string)
    (d off : list (string * pyval)) :
  BeautifulSoup html = Ok sp ->
  canonical_of sp url = Ok c ->
  ld_scripts sp = pre ++ script :: post ->
  forallb script_skipped pre = true ->
  forallb script_skipped post = true ->
  tag_string script = Some text ->
  nonempty text = true ->
  json_loads (strip text) = Ok (PDict d) ->
  dict_get d "@type" = PStr ty ->
  lower ty = "product" ->
  dict_get d "name" = PStr nm ->
  nm <> "" ->
  first_offer (dict_get d "offers") = Some off ->
  truthy (listed_price off) = true ->
  py_str (listed_price off) <> "" ->
  exists r,
    parse_product_page html url = Ok r
    /\ name r = PStr nm
    /\ price r = PStr (price_text off).
Proof.
  intros Hsp Hc Hld Hpre Hpost Htext Hne Hjson Hty Hlow Hnm Hnn Hov Hp Hs.
  destruct (process_item_product d ty nm off ld_init Hty Hlow eq_refl Hnm Hnn Hov Hp Hs)
    as [img Hitem].
  assert (scan_json_ld sp =
          {| ld_name := PStr nm; ld_price := PStr (price_text off); ld_image := img |})
    as Hscan.
  { unfold scan_json_ld, mtry. rewrite Hld, scan_scripts_skipped by done.
    rewrite (scan_scripts_block script post text (PDict d)) by done.
    erewrite mbind_ok by (by apply scan_items_break).
    rewrite <- (app_nil_r post), scan_scripts_skipped by done. done. }
  unfold parse_product_page, parse_body. rewrite Hsp. simpl rbind.
  rewrite Hc. simpl rbind. rewrite Hscan. simpl ld_name. simpl ld_price.
  assert (truthy (PStr nm) = true) as -> by (by destruct nm).
  assert (truthy (PStr (price_text off)) = true) as ->.
  { unfold price_text. destruct (py_str (listed_price off)); [done|].
    by destruct (truthy (listed_currency off)). }
  by eexists.
Qed.

(** ** The orchestrator *)

Lemma html_of_eval (scraped : pyval) :
  (if isinstance_dict scraped then
     do! h <- py_get scraped "html";
     Ok (py_or h (PStr ""))
   else Ok (py_or scraped (PStr ""))) = Ok (html_of scraped).
Proof. by destruct scraped. Qed.

Lemma scrape_candidate_spec (url : pyval) (products : list product) (h : history) :
  exists o h',
    fetch_record url h = (Ok o, h')
    /\ scrape_candidate url products h =
         (Ok (products ++ match o with Some r => [r] | None => [] end), h').
Proof.
  unfold fetch_record, scrape_candidate, mtry.
  destruct (scrape_website url h) as [[scraped|e] h1] eqn:Es.
  - erewrite mbind_ok by exact Es.
    rewrite html_of_eval, mbind_lift_ok. cbv zeta.
    destruct (truthy (html_of scraped)); cbn [negb].
    + destruct (parse_product_page_ok (html_of scraped) url) as [r Hr].
      rewrite Hr, mbind_lift_ok. unfold mret.
      eexists _, _. split; [done|]. by destruct (truthy (link r)).
    + eexists _, _. split; [done|]. unfold mret. by rewrite app_nil_r.
  - unfold mbind. rewrite Es. eexists _, _. split; [done|].
    unfold mret. by rewrite app_nil_r.
Qed.

Lemma scrape_loop_spec (candidates : list pyval) (products : list product)
    (h : history) :
  exists outcomes h',
    fetch_each candidates h = (Ok outcomes, h')
    /\ scrape_loop candidates products h = (Ok (products ++ successes outcomes), h')
    /\ length outcomes = length candidates.
Proof.
  revert products h. induction candidates as [|url rest IH]; intros products h.
  - exists [], h. simpl. by rewrite app_nil_r.
  - destruct (scrape_candidate_spec url products h) as (o & h1 & Ho & Hc).
    destruct (IH (products ++ match o with Some r => [r] | None => [] end) h1)
      as (os & h2 & Hos & Hl & Hlen).
    exists (o :: os), h2. split; [|split].
    + simpl. unfold mbind. by rewrite Ho, Hos.
    + simpl. unfold mbind. rewrite Hc, Hl. rewrite <- app_assoc.
      by destruct o.
    + simpl. by rewrite Hlen.
Qed.

Lemma successes_length (outcomes : list (option product)) :
  (length (successes outcomes) + skipped outcomes = length outcomes)%nat.
Proof.
  unfold successes, skipped.
  induction outcomes as [|[r|] os IH]; cbn in *; lia.
Qed.

(** C5. The orchestrator handles the candidates one after the
    other, each on its own: a candidate whose fetch raises or gives
    no HTML contributes nothing and the loop goes on.  The result is
    never an exception; it consists of exactly the records of the
    candidates that succeeded, in the order of their candidates, so
    with 6 candidates of which 2 are skipped it has 4 records. *)
Theorem discover_skips_failures (query : string) (n : Z) (h : history) :
  exists candidates outcomes h1 h2,
    candidates_of query n h = (Ok candidates, h1)
    /\ fetch_each candidates h1 = (Ok outcomes, h2)
    /\ length outcomes = length candidates
    /\ fetch_products_via_scrape query n h = (Ok (successes outcomes), h2)
    /\ (length (successes outcomes) + skipped outcomes = length candidates)%nat.
Proof.
  assert (exists candidates h1, candidates_of query n h = (Ok candidates, h1))
    as (candidates & h1 & Hc).
  { unfold candidates_of, mtry, mret.
    destruct (search_all query "" n h) as [[cs|e] h1]; by eexists _, _. }
  destruct (scrape_loop_spec candidates [] h1) as (outcomes & h2 & Ho & Hl & Hlen).
  exists candidates, outcomes, h1, h2.
  split; [done|]. split; [done|]. split; [done|]. split.
  - unfold fetch_products_via_scrape. fold (candidates_of query n).
    by erewrite mbind_ok by exact Hc.
  - rewrite <- Hlen. apply successes_length.
Qed.

(** * Further properties *)

(** ** Splitting the DOM text *)

Lemma substring_app (s : string) (i a b : nat) :
  String.substring i a s +:+ String.substring (i + a) b s = String.substring i (a + b) s.
Proof.
  revert i a. induction s as [|c s IH]; intros i a.
  - destruct i, a, b; reflexivity.
  - destruct i as [|i].
    + destruct a as [|a]; [reflexivity|].
      simpl. change (String c ?x +:+ ?y) with (String c (x +:+ y)).
      f_equal. apply (IH 0%nat a).
    + simpl. apply IH.
Qed.

Lemma substring_all (s : string) (i k : nat) :
  (String.length s - i <= k)%nat ->
  String.substring i k s = String.substring i (String.length s - i) s.
Proof.
  revert i k. induction s as [|c s IH]; intros i k Hk.
  - by destruct i, k.
  - destruct i as [|i]; simpl in *.
    + destruct k as [|k]; [lia|]. f_equal. rewrite (IH 0%nat k) by lia.
      by rewrite Nat.sub_0_r.
    + apply IH. lia.
Qed.

Lemma substring_zero (s : string) (i : nat) : String.substring i 0 s = "".
Proof. revert i. induction s as [|c s IH]; intros [|i]; simpl; auto. Qed.

Lemma substring_whole (s : string) : String.substring 0 (String.length s) s = s.
Proof. induction s as [|c s IH]; simpl; [done|by rewrite IH]. Qed.

Lemma length_substring (s : string) (i m : nat) :
  String.length (String.substring i m s) = Nat.min m (String.length s - i).
Proof.
  revert i m. induction s as [|c s IH]; intros i m.
  - destruct i, m; simpl; lia.
  - destruct i as [|i]; simpl.
    + destruct m as [|m]; simpl; [done|]. rewrite IH. lia.
    + apply IH.
Qed.

Lemma join_chunks (s : string) (m fuel i : nat) :
  (0 < m)%nat ->
  (String.length s - i <= fuel)%nat ->
  join_all (map (fun j => String.substring j m s) (range_from fuel i (String.length s) m))
  = String.substring i (String.length s - i) s.
Proof.
  intros Hm. revert i. induction fuel as [|fuel IH]; intros i Hfuel; simpl.
  - replace (String.length s - i)%nat with 0%nat by lia. by rewrite substring_zero.
  - destruct (Nat.ltb_spec i (String.length s)) as [Hi|Hi]; simpl.
    + rewrite IH by lia.
      rewrite substring_app.
      rewrite substring_all by lia. done.
    + replace (String.length s - i)%nat with 0%nat by lia. by rewrite substring_zero.
Qed.

Lemma range_from_bounds (fuel i stop step : nat) :
  Forall (fun j => (j < stop)%nat) (range_from fuel i stop step).
Proof.
  revert i. induction fuel as [|fuel IH]; intros i; simpl; [constructor|].
  destruct (Nat.ltb_spec i stop); constructor; [done|apply IH].
Qed.

(** X1. For a positive [max_length], [split_dom_content] returns
    chunks that, put one after the other, give the text back. *)
Theorem split_dom_content_join (dom_content : string) (max_length : Z) :
  0 < max_length ->
  exists chunks,
    split_dom_content dom_content max_length = Ok chunks
    /\ join_all chunks = dom_content.
Proof.
  intros Hm. unfold split_dom_content, py_range0.
  destruct (Z.eqb_spec max_length 0) as [|_]; [lia|].
  destruct (Z.ltb_spec max_length 0) as [|_]; [lia|].
  eexists. split; [reflexivity|].
  rewrite join_chunks by lia.
  rewrite Nat.sub_0_r. apply substring_whole.
Qed.

(** X2. For a positive [max_length], no chunk is empty and none is
    longer than [max_length]; an empty text gives no chunk. *)
Theorem split_dom_content_chunk_sizes (dom_content : string) (max_length : Z)
    (chunks : list string) :
  0 < max_length ->
  split_dom_content dom_content max_length = Ok chunks ->
  Forall (fun c => 1 <= Z.of_nat (String.length c) <= max_length) chunks
  /\ (dom_content = "" -> chunks = []).
Proof.
  intros Hm. unfold split_dom_content, py_range0.
  destruct (Z.eqb_spec max_length 0) as [|_]; [lia|].
  destruct (Z.ltb_spec max_length 0) as [|_]; [lia|].
  intros [= <-]. split; [|by intros ->].
  apply Forall_map.
  eapply Forall_impl; [apply range_from_bounds|].
  intros j Hj. cbv beta in Hj. rewrite length_substring. lia.
Qed.

(** X3. [split_dom_content] raises exactly when [max_length] is 0
    (the [ValueError] of [range]), and a negative [max_length] gives
    no chunk at all, whatever the text. *)
Theorem split_dom_content_bad_length (dom_content : string) (max_length : Z) :
  ((exists e, split_dom_content dom_content max_length = Raise e) <-> max_length = 0)
  /\ (max_length < 0 -> split_dom_content dom_content max_length = Ok []).
Proof.
  unfold split_dom_content, py_range0.
  destruct (Z.eqb_spec max_length 0) as [->|Hz]; simpl.
  - split; [|lia]. split; [done|]. intros _. by eexists.
  - destruct (Z.ltb_spec max_length 0); simpl.
    + split; [|done]. split; [by intros [e ?]|done].
    + split; [|lia]. split; [by intros [e ?]|done].
Qed.

(** ** The dedupe loop *)

Lemma dedupe_loop_spec (us uniq : list string) (seen : gset string) :
  (forall x, x ∈ seen <-> x ∈ uniq) ->
  exists added,
    dedupe_loop us uniq seen = uniq ++ added
    /\ sublist added us
    /\ (forall x, x ∈ added <-> x ∈ us /\ x ∉ uniq).
Proof.
  revert uniq seen. induction us as [|u us IH]; intros uniq seen Hseen.
  - exists []. simpl. rewrite app_nil_r. split; [done|]. split; [done|].
    intros x. rewrite elem_of_nil. world_free_tauto.
  - simpl. case_bool_decide as Hu.
    + destruct (IH uniq seen Hseen) as (added & -> & Hsub & Hin).
      exists added. split; [done|]. split; [by apply sublist_cons|].
      intros x. rewrite Hin, elem_of_cons. apply Hseen in Hu.
      split; [world_free_tauto|]. intros [[->|?] ?]; world_free_tauto.
    + destruct (IH (uniq ++ [u]) ({[u]} ∪ seen)) as (added & -> & Hsub & Hin).
      { intros x. rewrite elem_of_union, elem_of_singleton, elem_of_app,
          list_elem_of_singleton, Hseen. world_free_tauto. }
      exists (u :: added). rewrite <- app_assoc. split; [done|].
      split; [by apply sublist_skip|].
      intros x. rewrite !elem_of_cons, Hin, elem_of_app, list_elem_of_singleton.
      rewrite Hseen in Hu.
      destruct (decide (x = u)) as [->|Hne]; world_free_tauto.
Qed.

Lemma dedupe_loop_NoDup_id (us uniq : list string) (seen : gset string) :
  (forall x, x ∈ seen <-> x ∈ uniq) ->
  NoDup (uniq ++ us) ->
  dedupe_loop us uniq seen = uniq ++ us.
Proof.
  revert uniq seen. induction us as [|u us IH]; intros uniq seen Hseen Hnd.
  - simpl. by rewrite app_nil_r.
  - simpl. case_bool_decide as Hu.
    + apply Hseen in Hu. apply NoDup_app in Hnd as (_ & Hdis & _).
      exfalso. apply (Hdis u Hu). left.
    + rewrite (IH (uniq ++ [u]) ({[u]} ∪ seen)).
      * by rewrite <- app_assoc.
      * intros x. rewrite elem_of_union, elem_of_singleton, elem_of_app,
          list_elem_of_singleton, Hseen. world_free_tauto.
      * by rewrite <- app_assoc.
Qed.

Lemma gset_empty_nil (x : string) : x ∈ (∅ : gset string) <-> x ∈ ([] : list string).
Proof. rewrite elem_of_nil. split; [|done]. apply not_elem_of_empty. Qed.

Lemma dedupe_loop_head (us : list string) :
  head (dedupe_loop us [] ∅) = head us.
Proof.
  destruct us as [|u us]; [done|]. simpl.
  rewrite bool_decide_eq_false_2 by apply not_elem_of_empty.
  destruct (dedupe_loop_spec us [u] ({[u]} ∪ ∅)) as (added & -> & _); [|done].
  intros x. rewrite list_elem_of_singleton, elem_of_union, elem_of_singleton.
  split; [intros [?|?%not_elem_of_empty]; done|by left].
Qed.

Lemma filter_new_twice (l1 l2 us : list string) :
  filter (fun y => y ∉ l1) (filter (fun y => y ∉ l2) us)
  = filter (fun y => y ∉ l1 ++ l2) us.
Proof.
  rewrite list_filter_filter. apply list_filter_iff. intros y.
  rewrite elem_of_app. split.
  - intros [H1 H2] [H|H]; [exact (H1 H)|exact (H2 H)].
  - intros H. split; intros H'; apply H; [by left|by right].
Qed.

Lemma filter_new_seen (u : string) (l us : list string) :
  u ∈ l ->
  filter (fun y => y ∉ l) (filter (fun y => y ∉ [u]) us) = filter (fun y => y ∉ l) us.
Proof.
  intros Hu. apply list_filter_filter_l. intros y Hy Hin.
  apply list_elem_of_singleton in Hin as ->. exact (Hy Hu).
Qed.

(** The loop started with some URLs already kept adds what the loop
    started afresh keeps, less the URLs already kept. *)
Lemma dedupe_loop_filter (us uniq : list string) (seen : gset string) :
  (forall x, x ∈ seen <-> x ∈ uniq) ->
  dedupe_loop us uniq seen = uniq ++ filter (fun y => y ∉ uniq) (dedupe us).
Proof.
  revert uniq seen. induction us as [|u us IH]; intros uniq seen Hseen.
  - simpl. by rewrite app_nil_r.
  - assert (dedupe (u :: us) = u :: filter (fun y => y ∉ [u]) (dedupe us)) as Hhead.
    { unfold dedupe at 1. simpl.
      rewrite bool_decide_eq_false_2 by apply not_elem_of_empty.
      rewrite (IH [u] ({[u]} ∪ ∅)); [done|].
      intros x. rewrite list_elem_of_singleton, elem_of_union, elem_of_singleton.
      split; [intros [?|?%not_elem_of_empty]; done|by left]. }
    rewrite Hhead. simpl. case_bool_decide as Hu.
    + apply Hseen in Hu. rewrite (IH uniq seen Hseen).
      rewrite filter_cons_False by (intros H; exact (H Hu)).
      by rewrite filter_new_seen.
    + rewrite (IH (uniq ++ [u]) ({[u]} ∪ seen)).
      * rewrite filter_cons_True by (intros H; apply Hu, Hseen, H).
        by rewrite <- app_assoc, filter_new_twice.
      * intros x. rewrite elem_of_union, elem_of_singleton, elem_of_app,
          list_elem_of_singleton, Hseen. split; intros [?|?]; auto.
Qed.

Lemma dedupe_cons (u : string) (us : list string) :
  dedupe (u :: us) = u :: filter (fun y => y ∉ [u]) (dedupe us).
Proof.
  unfold dedupe at 1. simpl.
  rewrite bool_decide_eq_false_2 by apply not_elem_of_empty.
  rewrite (dedupe_loop_filter us [u] ({[u]} ∪ ∅)); [done|].
  intros x. rewrite list_elem_of_singleton, elem_of_union, elem_of_singleton.
  split; [intros [?|?%not_elem_of_empty]; done|by left].
Qed.

Lemma dedupe_app (pre post : list string) :
  dedupe (pre ++ post) = dedupe pre ++ filter (fun y => y ∉ pre) (dedupe post).
Proof.
  induction pre as [|u pre IH].
  - simpl. induction (dedupe post) as [|y l IHl]; [done|].
    rewrite filter_cons_True by apply not_elem_of_nil. by rewrite <- IHl.
  - rewrite <- app_comm_cons, !dedupe_cons, IH, filter_app, filter_new_twice. done.
Qed.

Lemma dedupe_at_first_occurrence (pre post : list string) (x : string) :
  x ∉ pre ->
  dedupe (pre ++ x :: post)
  = dedupe pre ++ x :: filter (fun y => y ∉ x :: pre) (dedupe post).
Proof.
  intros Hx. rewrite dedupe_app, dedupe_cons.
  rewrite filter_cons_True by exact Hx.
  rewrite filter_new_twice. do 2 f_equal.
  apply list_filter_iff. intros y.
  rewrite elem_of_app, list_elem_of_singleton, elem_of_cons.
  split; intros H [?|?]; apply H; auto.
Qed.

(** X4. The dedupe loop keeps exactly the strings of its input, each
    once, at the place of its first occurrence: the output has no
    duplicates, is a subsequence of the input with the same strings
    and the same first string, and wherever a string [x] occurs for
    the first time (after [pre], before [post]) the output is the
    output for [pre], then [x], then what the output for [post] has
    that is new.  These facts leave one output only. *)
Theorem dedupe_keeps_first_occurrences (us : list string) :
  NoDup (dedupe us)
  /\ sublist (dedupe us) us
  /\ (forall x, x ∈ dedupe us <-> x ∈ us)
  /\ head (dedupe us) = head us
  /\ (forall pre x post,
        us = pre ++ x :: post ->
        x ∉ pre ->
        dedupe us
        = dedupe pre ++ x :: filter (fun y => y ∉ x :: pre) (dedupe post)).
Proof.
  split; [apply dedupe_NoDup|].
  destruct (dedupe_loop_spec us [] ∅ gset_empty_nil) as (added & E & Hsub & Hin).
  split; [|split; [|split]].
  - unfold dedupe. rewrite E. done.
  - intros x. unfold dedupe. rewrite E. simpl. rewrite Hin, elem_of_nil.
    world_free_tauto.
  - apply dedupe_loop_head.
  - intros pre x post -> Hx. by apply dedupe_at_first_occurrence.
Qed.

(** X5. On a list without duplicates the dedupe loop changes
    nothing; so deduplicating twice is deduplicating once. *)
Theorem dedupe_fixes_distinct (us : list string) :
  (NoDup us -> dedupe us = us)
  /\ dedupe (dedupe us) = dedupe us.
Proof.
  assert (forall l : list string, NoDup l -> dedupe l = l) as H.
  { intros l Hl. apply (dedupe_loop_NoDup_id l [] ∅ gset_empty_nil Hl). }
  split; [apply H|]. apply H, dedupe_NoDup.
Qed.

(** ** The search strategies *)

Lemma Forall_of_sublist {A} (P : A -> Prop) (l k : list A) :
  Forall P k -> sublist l k -> Forall P l.
Proof.
  intros Hk Hs. induction Hs as [|x l k Hs IH|x l k Hs IH]; [done| |].
  - apply Forall_cons in Hk as [Hx Hk]. constructor; [done|by apply IH].
  - apply Forall_cons in Hk as [_ Hk]. by apply IH.
Qed.

Lemma ddg_links_http (anchors : list tag) (links : list string) (n : Z) :
  Forall (fun s => startswith s "http" = true) links ->
  Forall (fun s => startswith s "http" = true) (ddg_links anchors links n).
Proof.
  revert links. induction anchors as [|a anchors IH]; intros links Hl; [done|].
  simpl. destruct (tag_get a "href") as [href|]; [|by apply IH].
  destruct (startswith href "/"); [by apply IH|].
  assert (Forall (fun s => startswith s "http" = true)
            (if startswith href "http" then links ++ [href] else links)) as Hl'.
  { destruct (startswith href "http") eqn:E; [|done].
    apply Forall_app. split; [done|]. by constructor. }
  destruct (_ >=? n); [done|by apply IH].
Qed.

Lemma deduped_slice_forall (P : string -> Prop) (us : list string) (n : Z) :
  Forall P us -> Forall P (py_slice_to (dedupe us) n).
Proof.
  intros H. eapply Forall_of_sublist; [|apply py_slice_to_sublist].
  apply Forall_forall. intros x Hx.
  rewrite Forall_forall in H. apply H.
  destruct (dedupe_loop_spec us [] ∅ gset_empty_nil) as (added & E & _ & Hin).
  unfold dedupe in Hx. rewrite E in Hx. simpl in Hx. by apply Hin in Hx as [? _].
Qed.

Lemma http_urls_of_strings (l : list string) :
  Forall (fun s => startswith s "http" = true) l ->
  Forall (fun v => is_http_url v = true) (map PStr l).
Proof. intros H. apply Forall_map. by eapply Forall_impl. Qed.

(** X6. What the fallback strategy returns has no duplicates and, for
    a count that is not negative, at most that many URLs. *)
Theorem ddg_search_bounded_distinct (query : string) (n : Z) (h h' : history)
    (r : list pyval) :
  ddg_search query n h = (Ok r, h') ->
  NoDup r /\ (0 <= n -> Z.of_nat (length r) <= n).
Proof. apply ddg_search_deduped. Qed.

Lemma ddg_search_http_only_aux (query : string) (n : Z) (h h' : history)
    (r : list pyval) :
  ddg_search query n h = (Ok r, h') ->
  Forall (fun v => is_http_url v = true) r.
Proof.
  unfold ddg_search, mbind, mtry, perform, mret, mlift.
  destruct (requests_post h _ _) as [resp|e]; [|by intros [= <- _]].
  destruct (raise_for_status resp) as [[]|e]; [|by intros [= <- _]].
  destruct (BeautifulSoup _) as [sp|e]; [|done].
  intros [= <- _]. apply http_urls_of_strings, deduped_slice_forall.
  by apply ddg_links_http.
Qed.

(** X7. The fallback strategy returns only strings that start with
    [http]: relative and other links of the result page are left out. *)
Theorem ddg_search_http_only (query : string) (n : Z) (h h' : history)
    (r : list pyval) :
  ddg_search query n h = (Ok r, h') ->
  Forall (fun v => is_http_url v = true) r.
Proof. apply ddg_search_http_only_aux. Qed.

(** X8. The fallback strategy posts once and degrades to an empty
    list when the request fails or the answer has an error status;
    the only exception that can leave it is one of the HTML parser. *)
Theorem ddg_search_soft_failure (query : string) (n : Z) (h : history) :
  (forall e, requests_post h DDG_URL (ddg_payload query) = Raise e ->
     ddg_search query n h = (Ok [], HttpPost DDG_URL (ddg_payload query) :: h))
  /\ (forall resp, requests_post h DDG_URL (ddg_payload query) = Ok resp ->
        400 <= status_code resp < 600 ->
        ddg_search query n h = (Ok [], HttpPost DDG_URL (ddg_payload query) :: h))
  /\ (forall e h', ddg_search query n h = (Raise e, h') ->
        exists resp,
          requests_post h DDG_URL (ddg_payload query) = Ok resp
          /\ BeautifulSoup (PStr (resp_text resp)) = Raise e).
Proof.
  unfold ddg_search, mbind, mtry, perform, mret, mlift, raise_for_status.
  split; [|split].
  - by intros e ->.
  - intros resp -> Hs.
    destruct (Z.leb_spec 400 (status_code resp)); [|lia].
    destruct (Z.ltb_spec (status_code resp) 600); [done|lia].
  - intros e h'. destruct (requests_post h _ _) as [resp|e0]; [|done].
    destruct (_ && _); [done|].
    destruct (BeautifulSoup _) as [sp|e1] eqn:E; [done|].
    intros [= -> _]. by exists resp.
Qed.

Lemma scan_keys_dict (d : list (string * pyval)) (keys : list string)
    (results : list pyval) (n : Z) :
  exists o, scan_keys (PDict d) keys results n = Ok o.
Proof.
  revert results. induction keys as [|key keys IH]; intros results; [by eexists|].
  simpl. unfold dict_get. destruct (dict_lookup d key) as [v|]; [|apply IH].
  destruct v as [| | | | |l|]; simpl; try apply IH.
  destruct (collect_urls l results); [apply IH|by eexists].
Qed.

(** X9. The primary strategy degrades to an empty list: without an
    API key it does so before any request; after its one request it
    does so when the request fails, when the status is not 200, and
    when the body is not JSON. *)
Theorem firecrawl_search_soft_failure (query site : string) (n : Z) (h : history) :
  let payload := search_payload (search_query site query) n in
  let h1 := HttpPost FIRECRAWL_SEARCH_URL payload :: h in
  (key_present FIRECRAWL_API_KEY = false ->
     firecrawl_search query site n h = (Ok [], h))
  /\ (key_present FIRECRAWL_API_KEY = true ->
      (forall e, requests_post h FIRECRAWL_SEARCH_URL payload = Raise e ->
         firecrawl_search query site n h = (Ok [], h1))
      /\ (forall resp, requests_post h FIRECRAWL_SEARCH_URL payload = Ok resp ->
            status_code resp <> 200 \/ (exists e, resp_json resp = Raise e) ->
            firecrawl_search query site n h = (Ok [], h1))).
Proof.
  intros payload h1. unfold firecrawl_search. split.
  - by intros ->.
  - intros ->. simpl. fold payload.
    unfold mbind, mtry, perform, mret, mlift. split.
    + by intros e ->.
    + intros resp -> Hbad.
      destruct (Z.eqb_spec (status_code resp) 200) as [Hs|Hs]; simpl; [|done].
      destruct Hbad as [|[e ->]]; done.
Qed.

(** X10. The primary strategy raises in exactly one situation: the
    API answered 200 with a JSON body that is not an object.  The
    exception is the [AttributeError] of [data.get], and it leaves
    [search_all] too. *)
Theorem firecrawl_search_raises_iff (query site : string) (n : Z) (h h' : history)
    (e : exn) :
  let payload := search_payload (search_query site query) n in
  (firecrawl_search query site n h = (Raise e, h') <->
   key_present FIRECRAWL_API_KEY = true
   /\ exists resp data,
       requests_post h FIRECRAWL_SEARCH_URL payload = Ok resp
       /\ status_code resp = 200
       /\ resp_json resp = Ok data
       /\ isinstance_dict data = false
       /\ e = AttributeError
       /\ h' = HttpPost FIRECRAWL_SEARCH_URL payload :: h)
  /\ (firecrawl_search query site n h = (Raise e, h') ->
      search_all query site n h = (Raise e, h')).
Proof.
  intros payload. split.
  - unfold firecrawl_search. fold payload.
    unfold mbind, mtry, perform, mret, mlift. split.
    + destruct (key_present FIRECRAWL_API_KEY) eqn:Ek; cbn [negb]; [|done].
      destruct (requests_post h _ _) as [resp|e0] eqn:Ep; [|done].
      destruct (Z.eqb_spec (status_code resp) 200) as [Hs|Hs]; cbn [negb]; [|done].
      destruct (resp_json resp) as [data|e1] eqn:Ej; [|done].
      destruct (isinstance_dict data) eqn:Ed.
      * destruct data as [| | | | | |d]; try done.
        destruct (scan_keys_dict d ["results"; "data"; "items"] [] n) as [o ->].
        by destruct o.
      * assert (scan_keys data ["results"; "data"; "items"] [] n = Raise AttributeError)
          as -> by (by destruct data).
        intros [= <- <-]. split; [done|]. by exists resp, data.
    + intros (Hk & resp & data & Hp & Hs & Hj & Hd & -> & ->).
      unfold payload in *. cbv zeta. rewrite Hk. cbn [negb].
      rewrite Hp, Hs, Hj. cbn [negb Z.eqb Pos.eqb]. by destruct data.
  - intros H. unfold search_all, mbind. by rewrite H.
Qed.

Lemma collect_urls_truthy (items results : list pyval) :
  Forall (fun v => truthy v = true) results ->
  Forall (fun v => truthy v = true) (collect_urls items results).
Proof.
  revert results. induction items as [|it items IH]; intros results Hr; [done|].
  simpl. destruct it; try by apply IH.
  destruct (truthy (py_or _ _)) eqn:E; [|by apply IH].
  apply IH, Forall_app. split; [done|]. by constructor.
Qed.

Lemma scan_keys_truthy (data : pyval) (keys : list string) (results r : list pyval)
    (n : Z) :
  Forall (fun v => truthy v = true) results ->
  scan_keys data keys results n = Ok (Some r) ->
  Forall (fun v => truthy v = true) r.
Proof.
  revert results. induction keys as [|key keys IH]; intros results Hr; [done|].
  simpl. destruct (py_get data key) as [v|e0]; [|done]. simpl.
  destruct (isinstance_list v); [|by apply IH].
  destruct (py_get_default data key _) as [arr|e0]; [|done]. simpl.
  destruct (py_iter arr) as [items|e0]; [|done]. simpl.
  pose proof (collect_urls_truthy items results Hr) as Hc.
  destruct (collect_urls items results) as [|x xs] eqn:E; [by apply IH|].
  intros [= <-]. eapply Forall_of_sublist; [exact Hc|apply py_slice_to_sublist].
Qed.

Lemma http_url_truthy (v : pyval) : is_http_url v = true -> truthy v = true.
Proof. by destruct v as [| | | |[|c s]| |]. Qed.

Lemma extract_urls_http (obj : pyval) :
  Forall (fun s => startswith s "http" = true) (extract_urls_from_obj obj).
Proof.
  revert obj. fix IH 1. intros [| | | |s|l|d]; simpl; try constructor.
  - destruct (startswith s "http") eqn:E; by repeat constructor.
  - induction l as [|v l IHl]; [constructor|].
    apply Forall_app. split; [apply IH|apply IHl].
  - induction d as [|[k v] d IHd]; [constructor|].
    apply Forall_app. split; [apply IH|apply IHd].
Qed.

Lemma firecrawl_search_truthy (query site : string) (n : Z) (h h' : history)
    (r : list pyval) :
  firecrawl_search query site n h = (Ok r, h') ->
  Forall (fun v => truthy v = true) r.
Proof.
  unfold firecrawl_search.
  destruct (negb (key_present FIRECRAWL_API_KEY)); [by intros [= <- _]|].
  unfold mbind, mtry, perform, mret, mlift.
  destruct (requests_post h _ _) as [resp|e]; [|by intros [= <- _]].
  destruct (negb (status_code resp =? 200)); [by intros [= <- _]|].
  destruct (resp_json resp) as [data|e]; [|by intros [= <- _]].
  destruct (scan_keys data _ _ n) as [[keyed|]|e] eqn:Ek; [| |done].
  - intros [= <- _]. by eapply scan_keys_truthy.
  - intros [= <- _]. eapply Forall_impl; [|apply http_url_truthy].
    apply http_urls_of_strings, deduped_slice_forall, extract_urls_http.
Qed.

(** X11. For a count that is not negative, the search chain returns
    at most that many candidates, whichever strategy answered. *)
Theorem search_all_at_most_count (query site : string) (n : Z) (h h' : history)
    (r : list pyval) :
  0 <= n ->
  search_all query site n h = (Ok r, h') ->
  Z.of_nat (length r) <= n.
Proof. apply search_all_length. Qed.

Lemma search_all_candidates_truthy_aux (query site : string) (n : Z) (h h' : history)
    (r : list pyval) :
  search_all query site n h = (Ok r, h') ->
  Forall (fun v => truthy v = true) r.
Proof.
  unfold search_all, mbind at 1.
  destruct (firecrawl_search query site n h) as [[fc|e] h1] eqn:Efc; [|done].
  destruct fc as [|x fc].
  - intros H%ddg_search_http_only_aux. eapply Forall_impl; [exact H|apply http_url_truthy].
  - intros [= <- _]. by eapply firecrawl_search_truthy.
Qed.

(** X12. No candidate the search chain returns is [None], empty or
    otherwise false: every one passes the [if not url] test of the
    scraper. *)
Theorem search_all_candidates_truthy (query site : string) (n : Z) (h h' : history)
    (r : list pyval) :
  search_all query site n h = (Ok r, h') ->
  Forall (fun v => truthy v = true) r.
Proof. apply search_all_candidates_truthy_aux. Qed.

(** X13. [main] of web_search.py answers [None] exactly when the
    search chain found no candidate, and the first candidate
    otherwise. *)
Theorem web_search_main_first_or_none (query site : string) (n : Z) (h h' : history)
    (v : pyval) :
  web_search_main query site n h = (Ok v, h') ->
  exists results,
    search_all query site n h = (Ok results, h')
    /\ head results = (if truthy v then Some v else None)
    /\ (v = PNone <-> results = []).
Proof.
  unfold web_search_main, mbind at 1.
  destruct (search_all query site n h) as [[results|e] h1] eqn:Es; [|done].
  pose proof (search_all_candidates_truthy_aux _ _ _ _ _ _ Es) as Ht.
  destruct results as [|first rest]; intros [= <- <-]; eexists; (split; [done|]).
  - by split.
  - apply Forall_cons in Ht as [Hf _]. rewrite Hf. split; [done|].
    split; [|done]. intros ->. done.
Qed.

(** ** The fetch strategies *)

Lemma scrape_with_firecrawl_cases (url : string) (h : history) :
  exists html h',
    scrape_with_firecrawl url h = (Ok html, h')
    /\ (h' = h /\ html = PNone
        \/ h' = HttpPost FIRECRAWL_API_BASE (scrape_payload url) :: h).
Proof.
  unfold scrape_with_firecrawl.
  destruct (negb (key_present FIRECRAWL_API_KEY)); [by eexists _, _; split; [|left]|].
  unfold mtry, mbind, perform, mlift, mret.
  destruct (requests_post h _ _) as [resp|e]; [|by eexists _, _; split; [|right]].
  destruct (raise_for_status resp) as [[]|e]; [|by eexists _, _; split; [|right]].
  destruct (resp_json resp) as [data|e]; [|by eexists _, _; split; [|right]].
  match goal with |- context [match ?r with Ok _ => _ | Raise _ => _ end] =>
    destruct r as [v|e] end; by eexists _, _; split; [|right].
Qed.

(** X14. The API fetch strategy never raises and posts at most once:
    without a key it answers [None] before any request, and after its
    request it answers [None] when the request fails, when the status
    is an error status, and when the body is not a JSON object. *)
Theorem scrape_with_firecrawl_soft_failure (url : string) (h : history) :
  let h1 := HttpPost FIRECRAWL_API_BASE (scrape_payload url) :: h in
  (exists html h', scrape_with_firecrawl url h = (Ok html, h') /\ (h' = h \/ h' = h1))
  /\ (key_present FIRECRAWL_API_KEY = false -> scrape_with_firecrawl url h = (Ok PNone, h))
  /\ (key_present FIRECRAWL_API_KEY = true ->
      (forall e, requests_post h FIRECRAWL_API_BASE (scrape_payload url) = Raise e ->
         scrape_with_firecrawl url h = (Ok PNone, h1))
      /\ (forall resp,
            requests_post h FIRECRAWL_API_BASE (scrape_payload url) = Ok resp ->
            400 <= status_code resp < 600
            \/ (exists e, resp_json resp = Raise e)
            \/ (exists data, resp_json resp = Ok data /\ isinstance_dict data = false) ->
            scrape_with_firecrawl url h = (Ok PNone, h1))).
Proof.
  intros h1. split; [|split].
  - destruct (scrape_with_firecrawl_cases url h) as (html & h' & E & [[-> _]| ->]);
      exists html; eexists; (split; [exact E|]); [by left|by right].
  - unfold scrape_with_firecrawl. by intros ->.
  - unfold scrape_with_firecrawl. intros ->. cbn [negb].
    unfold mtry, mbind, perform, mlift, mret, raise_for_status. split.
    + by intros e ->.
    + intros resp -> Hbad.
      destruct (Z.leb_spec 400 (status_code resp));
        destruct (Z.ltb_spec (status_code resp) 600); cbn [andb]; try done;
        (destruct Hbad as [Hbad|[[e Hbad]|(data & Hbad & Hd)]]; [lia| |]);
        rewrite Hbad; try done; by destruct data.
Qed.

(** X15. Once the browser has started, the browser strategy quits it
    on every path, exactly once and as its last action; what it
    answers is what loading the page and reading its source gave, be
    that an exception, whether quitting succeeded or not.  When the
    browser does not start, there is nothing to quit. *)
Theorem scrape_with_selenium_always_quits (url : string) (h : history) :
  let h1 := ChromeStart :: h in
  (forall e, chrome_start h = Raise e ->
     scrape_with_selenium url h = (Raise e, h1))
  /\ (chrome_start h = Ok tt ->
      exists h2,
        scrape_with_selenium url h =
          (match driver_get h1 url with
           | Ok _ => driver_page_source (DriverGet url :: h1)
           | Raise e => Raise e
           end, DriverQuit :: h2)
        /\ count_events is_driver_quit (DriverQuit :: h2)
           = S (count_events is_driver_quit h)).
Proof.
  intros h1. unfold scrape_with_selenium, mbind, mfinally, mtry, perform, mret.
  split.
  - by intros e ->.
  - intros ->. fold h1.
    destruct (driver_get h1 url) as [[]|e].
    + eexists. split; [by destruct (driver_quit _) as [[]|?]|done].
    + eexists. split; [by destruct (driver_quit _) as [[]|?]|done].
Qed.

Lemma scrape_with_selenium_grows (url : string) (h : history) :
  (length h < length (snd (scrape_with_selenium url h)))%nat.
Proof.
  unfold scrape_with_selenium, mbind, mfinally, mtry, perform, mret.
  destruct (chrome_start h) as [[]|e]; [|simpl; lia].
  destruct (driver_get _ url) as [[]|e];
    [destruct (driver_page_source _)|]; destruct (driver_quit _) as [[]|?];
    simpl; lia.
Qed.

(** The test the scraper applies before it fetches anything. *)
Lemma scrape_website_accepted (url : pyval) (u : string) (h : history) :
  normalize_url url = Some u ->
  match validators_url with Some valid => valid u = true | None => True end ->
  scrape_website url h =
    mbind (scrape_with_firecrawl u)
      (fun html => if truthy html then mret html
                   else mbind (scrape_with_selenium u) (fun page => mret (PStr page))) h.
Proof.
  intros Hn Hv.
  assert (truthy url = true) as Ht.
  { unfold normalize_url in Hn. by destruct (truthy url). }
  assert (nonempty u = true) as Hu.
  { unfold normalize_url in Hn. rewrite Ht in Hn. simpl in Hn.
    destruct (nonempty (strip (py_str url))) eqn:E; [|done]. simpl in Hn.
    destruct (_ && _) in Hn; injection Hn as <-; [done|exact E]. }
  unfold scrape_website. rewrite Ht, Hn, Hu. simpl.
  destruct validators_url as [valid|]; [by rewrite Hv|done].
Qed.

(** X16. [scrape_website] rejects a URL with [ValueError] before any
    external action when the URL is false, normalizes to nothing, or
    fails [validators.url]; every other URL costs at least one
    external action. *)
Theorem scrape_website_rejects_before_io (url : pyval) (h : history) :
  let rejected :=
    match normalize_url url with
    | None => true
    | Some u =>
        match validators_url with
        | Some valid => negb (valid u)
        | None => false
        end
    end in
  (rejected = true ->
     exists msg, scrape_website url h = (Raise (ValueError msg), h))
  /\ (rejected = false ->
      (length h < length (snd (scrape_website url h)))%nat).
Proof.
  intros rejected. subst rejected. split.
  - unfold scrape_website.
    destruct (truthy url) eqn:Ht; cbn [negb]; [|by eexists].
    destruct (normalize_url url) as [u|]; [|by eexists].
    destruct (nonempty u); cbn [negb]; [|by eexists].
    destruct validators_url as [valid|]; [|done].
    intros ->. by eexists.
  - destruct (normalize_url url) as [u|] eqn:Hn; [|done].
    intros Hv. rewrite (scrape_website_accepted url u h Hn).
    + unfold mbind at 1.
      destruct (scrape_with_firecrawl_cases u h) as (html & h' & -> & Hh).
      pose proof (scrape_with_selenium_grows u h') as Hg.
      destruct Hh as [[-> ->]| ->]; cbn [truthy].
      * unfold mbind, mret.
        destruct (scrape_with_selenium u h) as [[page|e] h2]; simpl in *; lia.
      * destruct (truthy html); [simpl; lia|].
        unfold mbind, mret.
        destruct (scrape_with_selenium u _) as [[page|e] h2]; simpl in *; lia.
    + destruct validators_url as [valid|]; [|done].
      by apply negb_false_iff in Hv.
Qed.

(** ** What the JSON-LD scan keeps *)

Lemma ld_keeps_refl (st : ld_state) : ld_keeps st st.
Proof. by split. Qed.

Lemma ld_keeps_trans (st1 st2 st3 : ld_state) :
  ld_keeps st1 st2 -> ld_keeps st2 st3 -> ld_keeps st1 st3.
Proof.
  intros [Hn1 Hp1] [Hn2 Hp2]. split.
  - intros Ht. rewrite Hn2; rewrite Hn1; done.
  - intros Ho. by apply Hp2, Hp1.
Qed.

Lemma keeps_bind {A B} (m : ST ld_state A) (k : A -> ST ld_state B) (st : ld_state) :
  ld_keeps st (snd (m st)) ->
  (forall a st1, m st = (Ok a, st1) -> ld_keeps st1 (snd (k a st1))) ->
  ld_keeps st (snd (mbind m k st)).
Proof.
  intros Hm Hk. unfold mbind. destruct (m st) as [[a|e] st1] eqn:E; [|done].
  eapply ld_keeps_trans; [exact Hm|by apply Hk].
Qed.

Lemma keeps_bind_lift {A B} (r : result A) (k : A -> ST ld_state B) (st : ld_state) :
  (forall a, r = Ok a -> ld_keeps st (snd (k a st))) ->
  ld_keeps st (snd (mbind (mlift r) k st)).
Proof.
  intros Hk. unfold mbind, mlift. destruct r as [a|e]; [by apply Hk|apply ld_keeps_refl].
Qed.

Lemma keeps_bind_get {B} (k : ld_state -> ST ld_state B) (st : ld_state) :
  ld_keeps st (snd (k st st)) ->
  ld_keeps st (snd (mbind mget k st)).
Proof. done. Qed.

Lemma keeps_set_price (s : string) (st : ld_state) :
  ld_keeps st (snd (set_price (PStr s) st)).
Proof. by split. Qed.

Lemma keeps_set_image (v : pyval) (st : ld_state) :
  ld_keeps st (snd (set_image v st)).
Proof. by split. Qed.

Lemma keeps_set_name (v : pyval) (st : ld_state) :
  truthy (ld_name st) = false ->
  ld_keeps st (snd (set_name v st)).
Proof. intros Ht. split; [by rewrite Ht|done]. Qed.

Lemma process_offers_keeps (offers : pyval) (st : ld_state) :
  ld_keeps st (snd (process_offers offers st)).
Proof.
  unfold process_offers.
  apply keeps_bind_lift. intros offers' _.
  apply keeps_bind_lift. intros p _.
  apply keeps_bind_lift. intros price_val _.
  apply keeps_bind.
  { destruct (truthy price_val); [apply keeps_set_price|apply ld_keeps_refl]. }
  intros _ st1 _.
  apply keeps_bind_lift. intros c _.
  apply keeps_bind_lift. intros currency _.
  apply keeps_bind_get.
  destruct (_ && _); [apply keeps_set_price|apply ld_keeps_refl].
Qed.

Lemma process_item_keeps (it : pyval) (st : ld_state) :
  ld_keeps st (snd (process_item it st)).
Proof.
  unfold process_item.
  apply keeps_bind_lift. intros a _.
  apply keeps_bind_lift. intros t0 _.
  apply keeps_bind_lift. intros it_type _.
  destruct (is_product_type it_type); [|apply ld_keeps_refl].
  apply keeps_bind_get.
  apply keeps_bind.
  { destruct (truthy (ld_name st)) eqn:Ht; cbn [negb]; [apply ld_keeps_refl|].
    apply keeps_bind_lift. intros n _. by apply keeps_set_name. }
  intros _ st1 _.
  apply keeps_bind_lift. intros offers _.
  apply keeps_bind.
  { destruct (truthy offers); [apply process_offers_keeps|apply ld_keeps_refl]. }
  intros _ st2 _.
  apply keeps_bind_lift. intros img _.
  apply keeps_bind.
  { destruct (truthy img); [|apply ld_keeps_refl].
    destruct (isinstance_list img); [|apply keeps_set_image].
    apply keeps_bind_lift. intros x _. apply keeps_set_image. }
  intros _ st3 _.
  apply keeps_bind_get. apply ld_keeps_refl.
Qed.

Lemma scan_items_keeps (items : list pyval) (st : ld_state) :
  ld_keeps st (snd (scan_items items st)).
Proof.
  revert st. induction items as [|it items IH]; intros st; [apply ld_keeps_refl|].
  simpl. apply keeps_bind; [apply process_item_keeps|].
  intros brk st1 _. destruct brk; [apply ld_keeps_refl|apply IH].
Qed.

Lemma scan_scripts_keeps (scripts : list tag) (st : ld_state) :
  ld_keeps st (snd (scan_scripts scripts st)).
Proof.
  revert st. induction scripts as [|script scripts IH]; intros st; [apply ld_keeps_refl|].
  simpl. destruct (tag_string script) as [text|]; [|apply IH].
  destruct (negb (nonempty text)); [apply IH|].
  destruct (json_loads (strip text)) as [data|e]; [|apply IH].
  apply keeps_bind; [apply scan_items_keeps|].
  intros _ st1 _. apply IH.
Qed.

Lemma mtry_pass_state {A} (body : ST ld_state A) (a : A) (st : ld_state) :
  snd (mtry body (fun _ => mret a) st) = snd (body st).
Proof. unfold mtry, mret. by destruct (body st) as [[?|?] ?]. Qed.

Lemma scan_json_ld_price (sp : soup) :
  is_optional_str (ld_price (scan_json_ld sp)) = true.
Proof.
  unfold scan_json_ld. rewrite mtry_pass_state.
  by apply (scan_scripts_keeps (ld_scripts sp) ld_init).
Qed.

Lemma parse_body_fields (html url c : pyval) (sp : soup) :
  BeautifulSoup html = Ok sp ->
  canonical_of sp url = Ok c ->
  parse_product_page html url =
    Ok (let st := scan_json_ld sp in
        let m := meta_only_record sp url c in
        {| name := if truthy (ld_name st) then ld_name st else name m;
           price := if truthy (ld_price st) then ld_price st else price m;
           link := c;
           image := first_if_list
                      (if truthy (ld_image st) then ld_image st else image m);
           source_url := url;
           raw_title := raw_title m |}).
Proof.
  intros Hsp Hc. unfold parse_product_page, parse_body. rewrite Hsp. cbn [rbind].
  rewrite Hc. cbn [rbind]. cbv zeta.
  unfold meta_only_record, first_if_list. cbn [name price image raw_title].
  by destruct (truthy (ld_name _)), (truthy (ld_price _)), (truthy (ld_image _)).
Qed.


(** X17. The price of the record is always [None] or a [str],
    whatever the page holds. *)
Theorem price_is_optional_str (html url : pyval) :
  exists r,
    parse_product_page html url = Ok r
    /\ is_optional_str (price r) = true.
Proof.
  destruct (BeautifulSoup html) as [sp|e] eqn:Hsp.
  - destruct (canonical_of sp url) as [c|e] eqn:Hc.
    + rewrite (parse_body_fields html url c sp Hsp Hc). eexists. split; [done|].
      cbv zeta. cbn [price]. pose proof (scan_json_ld_price sp) as Hp.
      destruct (truthy (ld_price (scan_json_ld sp))); [done|].
      unfold meta_only_record. cbn [price]. by destruct (meta_prop sp _).
    + unfold parse_product_page, parse_body. rewrite Hsp. simpl. rewrite Hc.
      by eexists.
  - unfold parse_product_page, parse_body. rewrite Hsp. by eexists.
Qed.







(** ** More on the orchestrator *)

Lemma parse_product_page_source (html url : pyval) (r : product) :
  parse_product_page html url = Ok r -> source_url r = url.
Proof.
  unfold parse_product_page, parse_body.
  destruct (BeautifulSoup html) as [sp|e]; cbn [rbind]; [|by intros [= <-]].
  destruct (canonical_of sp url) as [c|e]; cbn [rbind]; by intros [= <-].
Qed.

Lemma fetch_record_some (url : pyval) (h h' : history) (r : product) :
  fetch_record url h = (Ok (Some r), h') ->
  source_url r = url /\ truthy url = true /\ truthy (link r) = true.
Proof.
  unfold fetch_record.
  destruct (scrape_website url h) as [[scraped|e] h1] eqn:Es; [|done].
  assert (truthy url = true) as Hu.
  { unfold scrape_website in Es. by destruct (truthy url). }
  destruct (truthy (html_of scraped)); [|done].
  destruct (parse_product_page (html_of scraped) url) as [r0|e] eqn:Ep; [|done].
  apply parse_product_page_source in Ep.
  intros [= <- _]. destruct (truthy (link r0)) eqn:El; by repeat split.
Qed.

Lemma fetch_each_outcomes (candidates : list pyval) (h h' : history)
    (outcomes : list (option product)) :
  fetch_each candidates h = (Ok outcomes, h') ->
  Forall2 (fun url o =>
             match o with
             | Some r => source_url r = url /\ truthy url = true
                         /\ truthy (link r) = true
             | None => True
             end) candidates outcomes.
Proof.
  revert h h' outcomes. induction candidates as [|url rest IH]; intros h h' outcomes.
  - by intros [= <- _].
  - cbn [fetch_each]. unfold mbind at 1.
    destruct (fetch_record url h) as [[o|e] h1] eqn:Eo; [|done].
    unfold mbind at 1.
    destruct (fetch_each rest h1) as [[os|e] h2] eqn:Eos; [|done].
    unfold mret. intros [= <- _]. constructor; [|by eapply IH].
    destruct o as [r|]; [by eapply fetch_record_some|done].
Qed.

Lemma discover_outcomes (query : string) (n : Z) (h h' : history)
    (products : list product) :
  fetch_products_via_scrape query n h = (Ok products, h') ->
  exists candidates h1 outcomes,
    candidates_of query n h = (Ok candidates, h1)
    /\ fetch_each candidates h1 = (Ok outcomes, h')
    /\ products = successes outcomes.
Proof.
  unfold fetch_products_via_scrape. fold (candidates_of query n). unfold mbind.
  destruct (candidates_of query n h) as [[candidates|e] h1] eqn:Ec; [|done].
  destruct (scrape_loop_spec candidates [] h1) as (outcomes & h2 & Ho & -> & _).
  intros [= <- <-]. by exists candidates, h1, outcomes.
Qed.

Lemma successes_sources (candidates : list pyval) (outcomes : list (option product)) :
  Forall2 (fun url o =>
             match o with
             | Some r => source_url r = url /\ truthy url = true
                         /\ truthy (link r) = true
             | None => True
             end) candidates outcomes ->
  sublist (map source_url (successes outcomes)) candidates
  /\ Forall (fun r => truthy (link r) = true /\ truthy (source_url r) = true)
       (successes outcomes).
Proof.
  unfold successes. induction 1 as [|url o cands outs Ho _ [IHs IHf]]; [by split|].
  destruct o as [r|]; cbn.
  - destruct Ho as (<- & Hu & Hl). split; [by apply sublist_skip|by constructor].
  - split; [by apply sublist_cons|done].
Qed.

Lemma candidates_of_length (query : string) (n : Z) (h h1 : history)
    (candidates : list pyval) :
  0 <= n ->
  candidates_of query n h = (Ok candidates, h1) ->
  Z.of_nat (length candidates) <= n.
Proof.
  intros Hn. unfold candidates_of, mtry, mret.
  destruct (search_all query "" n h) as [[cs|e] h0] eqn:Es.
  - intros [= <- _]. by eapply search_all_length.
  - intros [= <- _]. simpl. lia.
Qed.

(** X21. For a count that is not negative, the orchestrator returns
    at most that many records. *)
Theorem discover_at_most_count (query : string) (n : Z) (h h' : history)
    (products : list product) :
  0 <= n ->
  fetch_products_via_scrape query n h = (Ok products, h') ->
  Z.of_nat (length products) <= n.
Proof.
  intros Hn (candidates & h1 & outcomes & Hc & Ho & ->)%discover_outcomes.
  pose proof (candidates_of_length query n h h1 candidates Hn Hc) as Hlen.
  apply fetch_each_outcomes, successes_sources in Ho as [Hsub _].
  apply sublist_length in Hsub. rewrite length_map in Hsub. lia.
Qed.

(** X22. The source URLs of the records the orchestrator returns are
    candidates of the search, in the order the search gave them, and
    no candidate gives two records. *)
Theorem discover_records_follow_candidates (query : string) (n : Z) (h h' : history)
    (products : list product) :
  fetch_products_via_scrape query n h = (Ok products, h') ->
  exists candidates h1,
    candidates_of query n h = (Ok candidates, h1)
    /\ sublist (map source_url products) candidates.
Proof.
  intros (candidates & h1 & outcomes & Hc & Ho & ->)%discover_outcomes.
  exists candidates, h1. split; [done|].
  by apply fetch_each_outcomes, successes_sources in Ho as [Hsub _].
Qed.

(** X23. Every record the orchestrator returns has a link and a
    source URL that are there (neither [None] nor empty). *)
Theorem discover_records_have_links (query : string) (n : Z) (h h' : history)
    (products : list product) :
  fetch_products_via_scrape query n h = (Ok products, h') ->
  Forall (fun r => truthy (link r) = true /\ truthy (source_url r) = true) products.
Proof.
  intros (candidates & h1 & outcomes & Hc & Ho & ->)%discover_outcomes.
  by apply fetch_each_outcomes, successes_sources in Ho as [_ Hf].
Qed.

(** X24. When the search API answers 200 with JSON that is not an
    object, the orchestrator returns no record after that one
    request: the exception of the primary strategy ends the search,
    so the fallback strategy is not tried and nothing is fetched. *)
Theorem discover_nothing_on_odd_search_answer (query : string) (n : Z) (h : history)
    (resp : response) (data : pyval) :
  let payload := search_payload (search_query "" query) n in
  key_present FIRECRAWL_API_KEY = true ->
  requests_post h FIRECRAWL_SEARCH_URL payload = Ok resp ->
  status_code resp = 200 ->
  resp_json resp = Ok data ->
  isinstance_dict data = false ->
  fetch_products_via_scrape query n h
  = (Ok [], HttpPost FIRECRAWL_SEARCH_URL payload :: h).
Proof.
  intros payload Hk Hp Hs Hj Hd.
  assert (firecrawl_search query "" n h
          = (Raise AttributeError, HttpPost FIRECRAWL_SEARCH_URL payload :: h)) as Hfc.
  { unfold firecrawl_search. rewrite Hk. cbn [negb]. fold payload.
    unfold mbind, mtry, perform, mret, mlift.
    rewrite Hp, Hs, Hj. cbn [negb Z.eqb Pos.eqb]. by destruct data. }
  unfold fetch_products_via_scrape, search_all.
  unfold mbind at 1. unfold mtry. unfold mbind at 1. by rewrite Hfc.
Qed.

(** ** Detecting product queries *)

Lemma prefix_iff (w s : string) :
  String.prefix w s = true <-> exists b, s = w +:+ b.
Proof.
  revert s. induction w as [|c w IH]; intros s.
  - split; [intros _; by exists s|intros _; by destruct s].
  - destruct s as [|c' s]; simpl.
    + split; [done|]. by intros [b ?].
    + destruct (ascii_dec c c') as [->|Hne].
      * rewrite IH. split; intros [b Hb]; exists b.
        -- by rewrite Hb.
        -- change (String c' w +:+ b) with (String c' (w +:+ b)) in Hb. congruence.
      * split; [done|]. intros [b Hb].
        change (String c w +:+ b) with (String c (w +:+ b)) in Hb. congruence.
Qed.

Lemma contains_iff (s w : string) :
  contains s w = true <-> exists a b, s = a +:+ w +:+ b.
Proof.
  induction s as [|c s IH].
  - cbn [contains]. rewrite orb_false_r, prefix_iff. split.
    + intros [b ->]. by exists "", b.
    + intros ([|c a] & b & H); [by exists b|done].
  - cbn [contains]. rewrite orb_true_iff, prefix_iff, IH. split.
    + intros [[b ->]|(a & b & ->)]; [by exists "", b|by exists (String c a), b].
    + intros ([|c' a] & b & H).
      * left. by exists b.
      * right. change (String c' a +:+ w +:+ b) with (String c' (a +:+ w +:+ b)) in H.
        injection H as -> ->. by exists a, b.
Qed.

(** X25. [is_product_query] answers yes exactly when the lowercased
    input contains one of the keywords as a substring, anywhere, also
    inside a longer word. *)
Theorem is_product_query_iff (user_input : string) :
  is_product_query user_input = true <->
  exists word a b,
    In word product_keywords /\ lower user_input = a +:+ word +:+ b.
Proof.
  unfold is_product_query. rewrite existsb_exists. split.
  - intros (word & Hin & (a & b & H)%contains_iff). by exists word, a, b.
  - intros (word & a & b & Hin & H). exists word. split; [done|].
    apply contains_iff. by exists a, b.
Qed.

(** ** Choosing the chat model *)

Lemma try_candidates_using (candidates : list string) (last_exc : option exn)
    (c : string) (m : chat_model) :
  try_candidates candidates last_exc = Using c m <->
  exists pre post,
    candidates = pre ++ c :: post
    /\ Forall (fun x => exists e, ChatGoogleGenerativeAI x = Raise e) pre
    /\ ChatGoogleGenerativeAI c = Ok m.
Proof.
  revert last_exc. induction candidates as [|x rest IH]; intros last_exc; simpl.
  - split; [done|]. by intros ([|? ?] & ? & ? & _).
  - destruct (ChatGoogleGenerativeAI x) as [m'|e] eqn:Ex.
    + split.
      * intros [= -> ->]. by exists [], rest.
      * intros ([|y pre] & post & Heq & Hpre & Hc); simplify_eq/=; [congruence|].
        apply Forall_cons in Hpre as [[e' He'] _]. congruence.
    + rewrite IH. split.
      * intros (pre & post & -> & Hpre & Hc). exists (x :: pre), post.
        split; [done|]. split; [|done]. constructor; [by exists e|done].
      * intros ([|y pre] & post & Heq & Hpre & Hc); simplify_eq/=; [congruence|].
        apply Forall_cons in Hpre as [_ Hpre]. by exists pre, post.
Qed.

Lemma try_candidates_failed (candidates : list string) (last_exc : option exn) :
  (exists e, try_candidates candidates last_exc = AllFailed e) <->
  Forall (fun x => exists e, ChatGoogleGenerativeAI x = Raise e) candidates.
Proof.
  revert last_exc. induction candidates as [|x rest IH]; intros last_exc; simpl.
  - split; [done|]. intros _. by eexists.
  - destruct (ChatGoogleGenerativeAI x) as [m'|e] eqn:Ex.
    + split; [by intros [? ?]|]. intros [[e' He'] _]%Forall_cons. congruence.
    + rewrite IH. split.
      * intros H. constructor; [by exists e|done].
      * by intros [_ H]%Forall_cons.
Qed.

(** X26. [make_google_model] returns the model of the first
    candidate, in the configured order, whose construction does not
    raise, and it gives up (raising its [RuntimeError]) exactly when
    the construction raises for every candidate. *)
Theorem make_google_model_first_working (MODEL_CANDIDATES : list string) :
  (forall c m,
     make_google_model MODEL_CANDIDATES = Using c m <->
     exists pre post,
       MODEL_CANDIDATES = pre ++ c :: post
       /\ Forall (fun x => exists e, ChatGoogleGenerativeAI x = Raise e) pre
       /\ ChatGoogleGenerativeAI c = Ok m)
  /\ ((exists e, make_google_model MODEL_CANDIDATES = AllFailed e) <->
      Forall (fun x => exists e, ChatGoogleGenerativeAI x = Raise e) MODEL_CANDIDATES).
Proof.
  split; [intros c m; apply try_candidates_using|apply try_candidates_failed].
Qed.

(** ** Trimming the conversation *)

Lemma trim_messages_bounds {A} (messages : list A) :
  (length (trim_messages messages) <= 40)%nat
  /\ head (trim_messages messages) = head messages.
Proof.
  unfold trim_messages, py_last_n.
  destruct (Nat.ltb_spec 40 (length messages)) as [Hlen|Hlen]; [|done].
  destruct messages as [|first rest]; [simpl in Hlen; lia|].
  split; [|done]. cbn [length]. rewrite length_drop. cbn [length] in *. lia.
Qed.

Lemma chat_turn_bounds {A} (messages : list A) (user_message : A) :
  messages <> [] ->
  (length (chat_turn messages user_message) <= 41)%nat
  /\ head (chat_turn messages user_message) = head messages
  /\ chat_turn messages user_message <> [].
Proof.
  intros Hne. unfold chat_turn.
  destruct (trim_messages_bounds messages) as [Hlen Hhead].
  rewrite length_app. cbn [length]. split; [lia|].
  destruct (trim_messages messages) as [|x l] eqn:E.
  - destruct messages; [done|]. by simpl in Hhead.
  - split; [by rewrite <- Hhead|done].
Qed.

(** X27. Whatever the number of chat turns, the conversation handed
    to the agent never has more than 41 messages, and its first
    message (the system prompt) stays in place. *)
Theorem chat_turns_bounded {A} (messages user_messages : list A) :
  messages <> [] ->
  (length messages <= 41)%nat ->
  (length (chat_turns messages user_messages) <= 41)%nat
  /\ head (chat_turns messages user_messages) = head messages.
Proof.
  unfold chat_turns. revert messages.
  induction user_messages as [|u us IH]; intros messages Hne Hlen; [done|].
  cbn [fold_left].
  destruct (chat_turn_bounds messages u Hne) as (Hl & Hh & Hn).
  destruct (IH (chat_turn messages u) Hn Hl) as [IHl IHh].
  split; [done|]. by rewrite IHh.
Qed.

(** X28. Trimming keeps the latest messages as they are: after a
    trim of a conversation of more than 40 messages, the last 20
    messages are the last 20 from before. *)
Theorem trim_messages_keeps_latest {A} (messages : list A) :
  (40 < length messages)%nat ->
  py_last_n 20 (trim_messages messages) = py_last_n 20 messages
  /\ length (trim_messages messages) = 21%nat.
Proof.
  intros Hlen. unfold trim_messages.
  destruct (Nat.ltb_spec 40 (length messages)) as [_|]; [|lia].
  destruct messages as [|first rest]; [simpl in Hlen; lia|].
  unfold py_last_n. cbn [length] in *. rewrite length_drop. cbn [length].
  replace (S (S (length rest) - (S (length rest) - 20)) - 20)%nat with 1%nat by lia.
  split; [done|lia].
Qed.

End Pipeline.

(** * The properties at work in the small world *)

Abbreviation fx_parse :=
  (parse_product_page fx_render fx_soup fx_json_loads fx_urljoin).

Abbreviation fx_scrape :=
  (scrape_website fx_render fx_no_key fx_post fx_chrome_start fx_driver_get
     fx_page_source fx_driver_quit (Some fx_valid)).

Abbreviation fx_browser :=
  (scrape_with_selenium fx_chrome_start fx_driver_get fx_page_source fx_driver_quit).

Abbreviation fx_discover :=
  (fetch_products_via_scrape fx_render fx_no_key fx_post fx_chrome_start
     fx_driver_get fx_page_source fx_driver_quit (Some fx_valid) fx_soup
     fx_json_loads fx_urljoin).

(** Witness of C6: a bare host gets the scheme, a blank string is
    rejected and makes the scraper raise [ValueError] at once. *)
Lemma normalize_url_contract_witness :
  normalize_url fx_render (PStr "  shop.example/x ") = Some "https://shop.example/x"
  /\ normalize_url fx_render (PStr "   ") = None
  /\ exists msg, fx_scrape (PStr "   ") [] = (Raise (ValueError msg), []).
Proof.
  pose proof (normalize_url_contract fx_render fx_no_key fx_post fx_chrome_start
                fx_driver_get fx_page_source fx_driver_quit (Some fx_valid)) as H.
  destruct (H "  shop.example/x ") as (_ & Hadd & _).
  destruct (H "   ") as (Hblank & _).
  destruct (Hblank eq_refl) as [Hnone Hraise].
  split; [exact (Hadd eq_refl eq_refl eq_refl)|].
  split; [exact Hnone|exact (Hraise [])].
Defined.

(** Witness of C10. *)
Lemma normalize_url_idempotent_witness :
  normalize_url fx_render (PStr "https://shop.example/x") = Some "https://shop.example/x".
Proof.
  exact (normalize_url_idempotent fx_render (PStr "  shop.example/x ")
           "https://shop.example/x" eq_refl).
Defined.

(** Witness of C7: without an API key the primary strategy has no
    candidate and the fallback is called once; with a key and a
    non-empty answer the fallback is not called. *)
Lemma search_all_chain_witness :
  (search_all fx_no_key fx_post fx_soup "phone" "shop.example" 6 []
   = ddg_search fx_post fx_soup "site:shop.example phone" 6 []
   /\ fallback_calls (snd (search_all fx_no_key fx_post fx_soup "phone" "shop.example" 6 []))
      = 1%nat)
  /\ fallback_calls (snd (search_all fx_key fx_post fx_soup "phone" "" 5 [])) = 0%nat.
Proof.
  split.
  - destruct (search_all_chain fx_no_key fx_post fx_soup "phone" "shop.example" 6 [] [] []
                eq_refl) as [_ Hempty].
    destruct (Hempty eq_refl) as (Hres & Hcalls & _).
    split; [exact Hres|exact Hcalls].
  - destruct (search_all_chain fx_key fx_post fx_soup "phone" "" 5 []
                [HttpPost FIRECRAWL_SEARCH_URL (search_payload "phone" 5)]
                [PStr "https://shop.example/a"; PStr "https://shop.example/a";
                 PStr "https://shop.example/b"]
                eq_refl) as [Hsome _].
    destruct (Hsome ltac:(discriminate)) as [Hres Hcalls].
    rewrite Hres. exact Hcalls.
Defined.

(** C2, the defect at work: the search API lists one page twice, and
    [search_all] hands both copies on. *)
Theorem search_all_keeps_duplicates :
  exists urls h,
    search_all fx_key fx_post fx_soup "phone" "" 5 [] = (Ok urls, h)
    /\ urls = [PStr "https://shop.example/a"; PStr "https://shop.example/a";
               PStr "https://shop.example/b"]
    /\ ~ NoDup urls.
Proof.
  eexists _, _. split; [reflexivity|]. split; [reflexivity|].
  intros H. apply NoDup_cons in H as [Hin _]. apply Hin. left.
Qed.

(** Witness of C3 as amended: no API key, so the browser is called,
    once, and its page source is the answer. *)
Lemma fetch_chain_witness :
  exists html h1,
    scrape_with_firecrawl fx_no_key fx_post "https://shop.example/1" [] = (Ok html, h1)
    /\ (truthy html = true ->
          fx_scrape (PStr "shop.example/1") [] = (Ok html, h1)
          /\ browser_calls h1 = browser_calls [])
    /\ (truthy html = false ->
          fx_scrape (PStr "shop.example/1") [] =
            match fx_browser "https://shop.example/1" h1 with
            | (Ok page, h2) => (Ok (PStr page), h2)
            | (Raise e, h2) => (Raise e, h2)
            end
          /\ browser_calls (snd (fx_scrape (PStr "shop.example/1") [])) = 1%nat).
Proof.
  exact (fetch_chain fx_render fx_no_key fx_post fx_chrome_start fx_driver_get
           fx_page_source fx_driver_quit (Some fx_valid)
           (PStr "shop.example/1") "https://shop.example/1" [] eq_refl eq_refl).
Defined.

(** C3 as stated fails: here neither strategy produces non-empty
    HTML (no API key, and the browser renders nothing), and the chain
    returns the empty page instead of raising; and when the browser
    cannot load the page, its own exception is what the caller gets. *)
Lemma fetch_chain_returns_empty_page :
  (fst (scrape_with_firecrawl fx_no_key fx_post "https://shop.example/5" []) = Ok PNone
   /\ fst (fx_browser "https://shop.example/5" []) = Ok ""
   /\ fst (fx_scrape (PStr "https://shop.example/5") []) = Ok (PStr "")
   /\ ~ (exists e, fst (fx_scrape (PStr "https://shop.example/5") []) = Raise e))
  /\ (fst (fx_browser "https://shop.example/2" []) = Raise (LibraryError "WebDriverException")
      /\ fst (fx_scrape (PStr "https://shop.example/2") [])
         = Raise (LibraryError "WebDriverException")).
Proof.
  split; [|by split].
  split; [reflexivity|]. split; [reflexivity|]. split; [reflexivity|].
  intros [e He]. vm_compute in He. discriminate.
Qed.

(** Witness of C1: a value the HTML parser refuses gives the record
    with nothing but the URL. *)
Lemma extract_never_raises_witness :
  fx_parse (PInt 5) (PStr "https://shop.example/1")
  = Ok {| name := PNone; price := PNone; link := PStr "https://shop.example/1";
          image := PNone; source_url := PStr "https://shop.example/1";
          raw_title := PNone |}.
Proof.
  destruct (extract_never_raises fx_render fx_soup fx_json_loads fx_urljoin
              (PInt 5) (PStr "https://shop.example/1")) as (r & Hr & Hfail & _).
  rewrite Hr. f_equal. exact (Hfail TypeError eq_refl).
Defined.

(** Witness of C9: the canonical [href] is resolved against the
    source URL. *)
Lemma link_is_canonical_or_source_witness :
  exists r,
    fx_parse (PStr "gadget page") (PStr "https://shop.example/page") = Ok r
    /\ link r = PStr "https://shop.example/p/123"
    /\ source_url r = PStr "https://shop.example/page"
    /\ link r <> PNone.
Proof.
  destruct (link_is_canonical_or_source fx_render fx_soup fx_json_loads fx_urljoin
              (PStr "gadget page") (PStr "https://shop.example/page"))
    as (r & Hr & Hl & Hs & Hp).
  exists r. split; [exact Hr|]. split; [exact Hl|]. split; [exact Hs|].
  exact (proj1 (Hp ltac:(discriminate))).
Defined.

(** Witness of X29: the Widget block. *)
Lemma product_block_name_and_price_witness :
  exists r,
    fx_parse (PStr "widget page") (PStr "https://shop.example/widget") = Ok r
    /\ name r = PStr "Widget"
    /\ price r = PStr "19.99 USD".
Proof.
  exact (product_block_name_and_price fx_render fx_soup fx_json_loads fx_urljoin
           (PStr "widget page") (PStr "https://shop.example/widget")
           (PStr "https://shop.example/widget")
           [fx_ld_script "widget json"] [] [] (fx_ld_script "widget json")
           "widget json" "Product" "Widget"
           [("@context", PStr "https://schema.org");
            ("@type", PStr "Product");
            ("name", PStr "Widget");
            ("offers", PDict [("@type", PStr "Offer");
                              ("price", PStr "19.99");
                              ("priceCurrency", PStr "USD")])]
           [("@type", PStr "Offer"); ("price", PStr "19.99"); ("priceCurrency", PStr "USD")]
           eq_refl eq_refl eq_refl eq_refl eq_refl eq_refl eq_refl eq_refl eq_refl
           eq_refl eq_refl ltac:(discriminate) eq_refl eq_refl ltac:(discriminate)).
Defined.

(** C4, the defect at work: the page has two Product blocks, each
    with a name; the record has the name of the first and the price
    and the image of the second. *)
Theorem later_product_block_overrides :
  parse_product_page fx_render fx_soup fx_json_loads fx_urljoin
    (PStr "two products page") (PStr "https://shop.example/phone")
  = Ok {| name := PStr "Phone";
          price := PStr "9.99 USD";
          link := PStr "https://shop.example/phone";
          image := PStr "https://shop.example/case.png";
          source_url := PStr "https://shop.example/phone";
          raw_title := PStr "Phone" |}.
Proof. reflexivity. Qed.

(** C8, the same defect at work: the page has no meta tags and
    holds the Product block with name "Widget", price "19.99" and
    currency "USD", followed by a second Product block; the record
    has the name "Widget" and the price of the second block, not
    "19.99 USD". *)
Theorem widget_price_from_later_block :
  parse_product_page fx_render fx_soup_pair fx_json_loads fx_urljoin
    (PStr "widget and case page") (PStr "https://shop.example/widget")
  = Ok {| name := PStr "Widget";
          price := PStr "9.99 USD";
          link := PStr "https://shop.example/widget";
          image := PStr "https://shop.example/case.png";
          source_url := PStr "https://shop.example/widget";
          raw_title := PNone |}.
Proof. reflexivity. Qed.

(** C5 at work: six candidates, the second cannot be loaded and the
    fifth renders nothing; the four others give their records, in
    order. *)
Example discover_six_candidates :
  exists products h,
    fx_discover "phone" 6 [] = (Ok products, h)
    /\ map source_url products
       = [PStr "https://shop.example/1"; PStr "https://shop.example/3";
          PStr "https://shop.example/4"; PStr "https://shop.example/6"].
Proof. eexists _, _. split; reflexivity. Qed.

(** * The further properties at work in the small world *)

(** Witness of X1. *)
Lemma split_dom_content_join_witness :
  exists chunks,
    split_dom_content "abcdefg" 3 = Ok chunks /\ join_all chunks = "abcdefg".
Proof. exact (split_dom_content_join "abcdefg" 3 eq_refl). Defined.

(** Witness of X2. *)
Lemma split_dom_content_chunk_sizes_witness :
  Forall (fun c => 1 <= Z.of_nat (String.length c) <= 3) ["abc"; "def"; "g"].
Proof.
  exact (proj1 (split_dom_content_chunk_sizes "abcdefg" 3 ["abc"; "def"; "g"]
                  eq_refl eq_refl)).
Defined.

(** Witness of X3: a negative length loses the text. *)
Lemma split_dom_content_bad_length_witness :
  split_dom_content "abcdefg" (-3) = Ok []
  /\ exists e, split_dom_content "abcdefg" 0 = Raise e.
Proof.
  split.
  - exact (proj2 (split_dom_content_bad_length "abcdefg" (-3)) eq_refl).
  - exact (proj2 (proj1 (split_dom_content_bad_length "abcdefg" 0)) eq_refl).
Defined.

(** Witness of X4: the second URL comes back after the third. *)
Lemma dedupe_keeps_first_occurrences_witness :
  dedupe ["https://a.example"; "https://b.example"; "https://c.example";
          "https://b.example"]
  = ["https://a.example"; "https://b.example"; "https://c.example"].
Proof.
  apply (proj2 (proj2 (proj2 (proj2 (dedupe_keeps_first_occurrences
           ["https://a.example"; "https://b.example"; "https://c.example";
            "https://b.example"]))))
           ["https://a.example"] "https://b.example"
           ["https://c.example"; "https://b.example"] eq_refl).
  intros Hin. apply list_elem_of_singleton in Hin. discriminate.
Defined.

(** Witness of X5. *)
Lemma dedupe_fixes_distinct_witness :
  dedupe ["https://a.example"; "https://b.example"]
  = ["https://a.example"; "https://b.example"].
Proof.
  apply (proj1 (dedupe_fixes_distinct ["https://a.example"; "https://b.example"])).
  apply NoDup_cons. split.
  - intros Hin. apply elem_of_cons in Hin as [Hin|Hin]; [discriminate|].
    inversion Hin.
  - apply NoDup_singleton.
Defined.

(** Witness of X6. *)
Lemma ddg_search_bounded_distinct_witness :
  exists r h',
    ddg_search fx_post fx_soup "phone" 3 [] = (Ok r, h')
    /\ NoDup r /\ (0 <= 3 -> Z.of_nat (length r) <= 3).
Proof.
  eexists _, _. split; [reflexivity|].
  exact (ddg_search_bounded_distinct fx_post fx_soup "phone" 3 [] _ _ eq_refl).
Defined.

(** Witness of X7. *)
Lemma ddg_search_http_only_witness :
  exists r h',
    ddg_search fx_post fx_soup "phone" 3 [] = (Ok r, h')
    /\ Forall (fun v => is_http_url v = true) r.
Proof.
  eexists _, _. split; [reflexivity|].
  exact (ddg_search_http_only fx_post fx_soup "phone" 3 [] _ _ eq_refl).
Defined.

(** Witness of X8: no connection, then an error status. *)
Lemma ddg_search_soft_failure_witness :
  ddg_search (fx_post_answer (Raise (LibraryError "ConnectionError"))) fx_soup "phone" 3 []
  = (Ok [], [HttpPost DDG_URL (ddg_payload "phone")])
  /\ ddg_search (fx_post_answer (Ok fx_unavailable_response)) fx_soup "phone" 3 []
     = (Ok [], [HttpPost DDG_URL (ddg_payload "phone")]).
Proof.
  split.
  - exact (proj1 (ddg_search_soft_failure
                    (fx_post_answer (Raise (LibraryError "ConnectionError")))
                    fx_soup "phone" 3 []) _ eq_refl).
  - apply (proj1 (proj2 (ddg_search_soft_failure
                           (fx_post_answer (Ok fx_unavailable_response))
                           fx_soup "phone" 3 [])) fx_unavailable_response eq_refl).
    simpl. lia.
Defined.

(** Witness of X9: no key, then a key and an error status. *)
Lemma firecrawl_search_soft_failure_witness :
  firecrawl_search fx_no_key fx_post "phone" "" 3 [] = (Ok [], [])
  /\ firecrawl_search fx_key (fx_post_answer (Ok fx_unavailable_response)) "phone" "" 3 []
     = (Ok [], [HttpPost FIRECRAWL_SEARCH_URL (search_payload "phone" 3)]).
Proof.
  split.
  - exact (proj1 (firecrawl_search_soft_failure fx_no_key fx_post "phone" "" 3 []) eq_refl).
  - apply (proj2 (proj2 (firecrawl_search_soft_failure fx_key
                           (fx_post_answer (Ok fx_unavailable_response))
                           "phone" "" 3 []) eq_refl)
             fx_unavailable_response eq_refl).
    left. simpl. lia.
Defined.

(** Witness of X10: the API answers with an array. *)
Lemma firecrawl_search_raises_iff_witness :
  firecrawl_search fx_key (fx_post_answer (Ok fx_array_response)) "phone" "" 3 []
  = (Raise AttributeError, [HttpPost FIRECRAWL_SEARCH_URL (search_payload "phone" 3)]).
Proof.
  apply (proj1 (firecrawl_search_raises_iff fx_key (fx_post_answer (Ok fx_array_response))
                  fx_soup "phone" "" 3 [] _ AttributeError)).
  split; [reflexivity|].
  eexists _, _. repeat split; reflexivity.
Defined.

(** Witness of X11. *)
Lemma search_all_at_most_count_witness :
  exists r h',
    search_all fx_key fx_post fx_soup "phone" "" 2 [] = (Ok r, h')
    /\ Z.of_nat (length r) <= 2.
Proof.
  eexists _, _. split; [reflexivity|].
  exact (search_all_at_most_count fx_key fx_post fx_soup "phone" "" 2 [] _ _
           ltac:(lia) eq_refl).
Defined.

(** Witness of X12. *)
Lemma search_all_candidates_truthy_witness :
  exists r h',
    search_all fx_no_key fx_post fx_soup "phone" "" 6 [] = (Ok r, h')
    /\ Forall (fun v => truthy v = true) r.
Proof.
  eexists _, _. split; [reflexivity|].
  exact (search_all_candidates_truthy fx_no_key fx_post fx_soup "phone" "" 6 [] _ _ eq_refl).
Defined.

(** Witness of X13. *)
Lemma web_search_main_first_or_none_witness :
  exists results,
    search_all fx_no_key fx_post fx_soup "phone" "" 1 []
    = (Ok results, [HttpPost DDG_URL (ddg_payload "phone")])
    /\ head results = Some (PStr "https://shop.example/1")
    /\ (PStr "https://shop.example/1" = PNone <-> results = []).
Proof.
  exact (web_search_main_first_or_none fx_no_key fx_post fx_soup "phone" "" 1 []
           [HttpPost DDG_URL (ddg_payload "phone")] (PStr "https://shop.example/1")
           eq_refl).
Defined.

(** Witness of X14: the content API refuses the request. *)
Lemma scrape_with_firecrawl_soft_failure_witness :
  scrape_with_firecrawl fx_key fx_post "https://shop.example/1" []
  = (Ok PNone, [HttpPost FIRECRAWL_API_BASE (scrape_payload "https://shop.example/1")]).
Proof.
  apply (proj2 (proj2 (proj2 (scrape_with_firecrawl_soft_failure fx_key fx_post
                                "https://shop.example/1" [])) eq_refl)
           {| status_code := 402; resp_json := Ok (PDict [("success", PBool false)]);
              resp_text := "" |} eq_refl).
  left. simpl. lia.
Defined.

(** Witness of X15: the page cannot be loaded, the browser is quit. *)
Lemma scrape_with_selenium_always_quits_witness :
  exists h2,
    scrape_with_selenium fx_chrome_start fx_driver_get fx_page_source fx_driver_quit
      "https://shop.example/2" []
    = (Raise (LibraryError "WebDriverException"), DriverQuit :: h2)
    /\ count_events is_driver_quit (DriverQuit :: h2) = 1%nat.
Proof.
  exact (proj2 (scrape_with_selenium_always_quits fx_chrome_start fx_driver_get
                  fx_page_source fx_driver_quit "https://shop.example/2" []) eq_refl).
Defined.

(** Witness of X16: a URL with a space is refused at once. *)
Lemma scrape_website_rejects_before_io_witness :
  exists msg,
    scrape_website fx_render fx_no_key fx_post fx_chrome_start fx_driver_get
      fx_page_source fx_driver_quit (Some fx_no_spaces) (PStr "my shop.example") []
    = (Raise (ValueError msg), []).
Proof.
  exact (proj1 (scrape_website_rejects_before_io fx_render fx_no_key fx_post
                  fx_chrome_start fx_driver_get fx_page_source fx_driver_quit
                  (Some fx_no_spaces) (PStr "my shop.example") []) eq_refl).
Defined.




(** Witness of X21. *)
Lemma discover_at_most_count_witness :
  exists products h',
    fx_discover "phone" 6 [] = (Ok products, h')
    /\ Z.of_nat (length products) <= 6.
Proof.
  eexists _, _. split; [reflexivity|].
  exact (discover_at_most_count fx_render fx_no_key fx_post fx_chrome_start
           fx_driver_get fx_page_source fx_driver_quit (Some fx_valid) fx_soup
           fx_json_loads fx_urljoin "phone" 6 [] _ _ ltac:(lia) eq_refl).
Defined.

(** Witness of X22. *)
Lemma discover_records_follow_candidates_witness :
  exists products h' candidates h1,
    fx_discover "phone" 6 [] = (Ok products, h')
    /\ candidates_of fx_no_key fx_post fx_soup "phone" 6 [] = (Ok candidates, h1)
    /\ sublist (map source_url products) candidates.
Proof.
  destruct (discover_records_follow_candidates fx_render fx_no_key fx_post
              fx_chrome_start fx_driver_get fx_page_source fx_driver_quit
              (Some fx_valid) fx_soup fx_json_loads fx_urljoin "phone" 6 [] _ _ eq_refl)
    as (candidates & h1 & Hc & Hsub).
  eexists _, _, candidates, h1. split; [reflexivity|]. split; [exact Hc|exact Hsub].
Defined.

(** Witness of X23. *)
Lemma discover_records_have_links_witness :
  exists products h',
    fx_discover "phone" 6 [] = (Ok products, h')
    /\ Forall (fun r => truthy (link r) = true /\ truthy (source_url r) = true) products.
Proof.
  eexists _, _. split; [reflexivity|].
  exact (discover_records_have_links fx_render fx_no_key fx_post fx_chrome_start
           fx_driver_get fx_page_source fx_driver_quit (Some fx_valid) fx_soup
           fx_json_loads fx_urljoin "phone" 6 [] _ _ eq_refl).
Defined.

(** Witness of X24: the search API answers with an array. *)
Lemma discover_nothing_on_odd_search_answer_witness :
  fetch_products_via_scrape fx_render fx_key (fx_post_answer (Ok fx_array_response))
    fx_chrome_start fx_driver_get fx_page_source fx_driver_quit (Some fx_valid) fx_soup
    fx_json_loads fx_urljoin "phone" 6 []
  = (Ok [], [HttpPost FIRECRAWL_SEARCH_URL (search_payload "phone" 6)]).
Proof.
  exact (discover_nothing_on_odd_search_answer fx_render fx_key
           (fx_post_answer (Ok fx_array_response)) fx_chrome_start fx_driver_get
           fx_page_source fx_driver_quit (Some fx_valid) fx_soup fx_json_loads fx_urljoin
           "phone" 6 [] fx_array_response
           (PList [PStr "https://shop.example/a"; PStr "https://shop.example/b"])
           eq_refl eq_refl eq_refl eq_refl eq_refl).
Defined.

(** Witness of X25: [top] inside [STOP]. *)
Lemma is_product_query_iff_witness :
  is_product_query "How to STOP hiccups" = true.
Proof.
  apply (proj2 (is_product_query_iff "How to STOP hiccups")).
  exists "top", "how to s", " hiccups". split; [|reflexivity].
  unfold product_keywords. simpl. tauto.
Defined.

(** Witness of X26: the fourth candidate is the first that works. *)
Lemma make_google_model_first_working_witness :
  make_google_model string fx_chat_model fx_model_candidates
  = Using string "gemini-pro" "client for gemini-pro".
Proof.
  apply (proj1 (make_google_model_first_working string fx_chat_model fx_model_candidates)).
  exists ["gemini-1.5-flash"; "gemini-1.5"; "gemini-1.0"], ["gemini-1.5-preview"].
  split; [reflexivity|]. split; [|reflexivity].
  repeat constructor; by eexists.
Defined.

(** Witness of X27: fifty turns after the system prompt. *)
Lemma chat_turns_bounded_witness :
  (length (chat_turns [0%nat] (seq 1 50)) <= 41)%nat
  /\ head (chat_turns [0%nat] (seq 1 50)) = Some 0%nat.
Proof.
  exact (chat_turns_bounded [0%nat] (seq 1 50) ltac:(discriminate) ltac:(simpl; lia)).
Defined.

(** Witness of X28. *)
Lemma trim_messages_keeps_latest_witness :
  py_last_n 20 (trim_messages (seq 0 45)) = py_last_n 20 (seq 0 45)
  /\ length (trim_messages (seq 0 45)) = 21%nat.
Proof.
  exact (trim_messages_keeps_latest (seq 0 45) ltac:(vm_compute; lia)).
Defined.
